(** * CoinbaseGuard: the nothing-at-stake crypto-condition of src/cc/CoinbaseGuard.cpp

    A shallow embedding of the stake-metadata decoder, the stake transaction
    validator, the guarded-output builder, the matching-stake detector, the
    cheat-evidence builder and the spend authorizer, followed by the
    properties the specification states about them.

    Conventions.
    - [uint32_t] values are [Z] with the wrap-around written out ([wrap32]).
    - [unsigned char] is [Byte.byte]; a [std::vector<unsigned char>] and a
      [CScript] are [list byte].
    - [v[i]] on a vector is [vec_at v i]; an index outside the vector is the
      fault [OutOfRange] (undefined behaviour in the source), a failed
      [assert] is the fault [AssertFailed], and control that reaches the end
      of a function declared with a result without a [return] statement is
      the fault [MissingReturn] (undefined behaviour as well).
    - An out-parameter becomes a component of the returned tuple.
    - Everything the file calls but does not define (script reading, chain
      lookups, keys, hashing, (de)serialisation) is a field of [Env]. *)

From Stdlib Require Import ZArith List Bool Lia.
From Stdlib.Strings Require Import Byte.
Import ListNotations.
Local Open Scope Z_scope.

(** ** Bytes and machine integers *)

Definition byte := Byte.byte.

Definition b2z (b : byte) : Z := Z.of_N (Byte.to_N b).

Definition byte_of_Z (z : Z) : byte :=
  match Byte.of_N (Z.to_N (z mod 256)) with
  | Some b => b
  | None => Byte.x00
  end.

Definition wrap32 (z : Z) : Z := z mod 2 ^ 32.

(** [x << k] on a [uint32_t] (for [k >= 32] the source language leaves the
    result undefined; the model keeps the mathematical shift, truncated). *)
Definition shl32 (x k : Z) : Z := wrap32 (Z.shiftl x k).

Definition size {A : Type} (v : list A) : Z := Z.of_nat (length v).

Fixpoint bytes_eqb (a b : list byte) : bool :=
  match a, b with
  | [], [] => true
  | x :: a', y :: b' => Byte.eqb x y && bytes_eqb a' b'
  | _, _ => false
  end.

(** ** Faults and the result monad *)

Inductive fault : Type :=
| OutOfRange
| AssertFailed
| MissingReturn
| OutOfFuel.

Inductive result (A : Type) : Type :=
| Ok (a : A)
| Fault (f : fault).

Arguments Ok {A} a.
Arguments Fault {A} f.

Definition bind {A B : Type} (r : result A) (k : A -> result B) : result B :=
  match r with
  | Ok a => k a
  | Fault f => Fault f
  end.

Notation "x <- e ;; k" := (bind e (fun x => k))
  (at level 61, e at next level, right associativity).
Notation "' pat <- e ;; k" := (bind e (fun x => match x with pat => k end))
  (at level 61, pat pattern, e at next level, right associativity).

(** Short-circuit [&&] and [||] over operands that may fault. *)
Definition andM (a b : result bool) : result bool :=
  x <- a ;; if x then b else Ok false.

Definition orM (a b : result bool) : result bool :=
  x <- a ;; if x then Ok true else b.

Infix "&&&" := andM (at level 40, left associativity).
Infix "|||" := orM (at level 50, left associativity).

Definition vec_at {A : Type} (v : list A) (i : Z) : result A :=
  if (0 <=? i) && (i <? size v)
  then match nth_error v (Z.to_nat i) with
       | Some a => Ok a
       | None => Fault OutOfRange
       end
  else Fault OutOfRange.

(** ** Scripts, keys, hashes and transactions *)

Definition CScript := list byte.
Definition opcodetype := Z.
Definition CPubKey := list byte.
Definition uint256 := list byte.

Definition OP_PUSHDATA1 : opcodetype := 0x4c.
Definition OP_PUSHDATA2 : opcodetype := 0x4d.
Definition OP_PUSHDATA4 : opcodetype := 0x4e.
Definition OP_1 : opcodetype := 0x51.
Definition OP_16 : opcodetype := 0x60.
Definition OP_RETURN : opcodetype := 0x6a.
Definition OP_DROP : opcodetype := 0x75.
Definition OP_CHECKSIG : opcodetype := 0xac.
Definition OP_CHECKCRYPTOCONDITION : opcodetype := 0xcc.

(** [uint256()]: the all-zero hash. *)
Definition uint256_zero : uint256 := repeat Byte.x00 32.

(** [uint256(vch)]: the vector constructor asserts that [vch] has the size
    of the hash. *)
Definition uint256_of_vector (vch : list byte) : result uint256 :=
  if size vch =? 32 then Ok vch else Fault AssertFailed.

(** [CPubKey()]: the empty, invalid key. *)
Definition CPubKey_default : CPubKey := [].

(** Modelled from the spec: [CPubKey::IsValid] of pubkey.h, which is not
    among the sources. A key is modelled by the bytes it holds and the
    invalid key holds none: a stake with no delegate key embedded is the one
    whose key is not valid. *)
Definition CPubKey_IsValid (k : CPubKey) : bool := 0 <? size k.

Record COutPoint : Type := {
  hash : uint256;
  n : Z
}.

Record CTxIn : Type := {
  prevout : COutPoint;
  scriptSig : CScript
}.

Record CTxOut : Type := {
  nValue : Z;
  scriptPubKey : CScript
}.

(** [CTransaction] and [CMutableTransaction] carry the same fields. *)
Record CTransaction : Type := {
  nVersion : Z;
  vin : list CTxIn;
  vout : list CTxOut;
  nLockTime : Z
}.

Definition CTxOut_default : CTxOut := {| nValue := -1; scriptPubKey := [] |}.

Inductive txnouttype : Type :=
| TX_NONSTANDARD
| TX_PUBKEY
| TX_PUBKEYHASH
| TX_SCRIPTHASH
| TX_MULTISIG
| TX_CRYPTOCONDITION
| TX_NULL_DATA.

Definition is_TX_PUBKEY (t : txnouttype) : bool :=
  match t with TX_PUBKEY => true | _ => false end.

Definition is_TX_PUBKEYHASH (t : txnouttype) : bool :=
  match t with TX_PUBKEYHASH => true | _ => false end.

Record COptCCParams : Type := {
  ccp_version : Z;
  ccp_evalCode : Z;
  ccp_m : Z;
  ccp_n : Z;
  ccp_vKeys : list CPubKey;
  ccp_vData : list (list byte)
}.

(** The fulfillment handle returned by [GetCryptoCondition]. *)
Record CC : Type := {
  cc_code : Z
}.

Record CStakeParams : Type := {
  srcHeight : Z;
  blkHeight : Z;
  prevHash : uint256;
  pk : CPubKey
}.

(** [CStakeParams()]. *)
Definition CStakeParams_default : CStakeParams :=
  {| srcHeight := 0; blkHeight := 0; prevHash := uint256_zero; pk := CPubKey_default |}.

(** Modelled from the spec: [CStakeParams::IsValid] is declared in
    CoinbaseGuard.h, which is not among the sources; the spec's data model
    says that sourceHeight = 0 is the sentinel of an invalid decode. *)
Definition IsValid (p : CStakeParams) : bool := negb (srcHeight p =? 0).

(** Modelled from the spec: [CStakeParams::STAKE_MINPARAMS] and
    [STAKE_MAXPARAMS] are declared in CoinbaseGuard.h, which is not among
    the sources; the spec says that the chunk count must be 4 or 5. *)
Definition STAKE_MINPARAMS : Z := 4.
Definition STAKE_MAXPARAMS : Z := 5.

(** ** The collaborators

    Everything CoinbaseGuard.cpp calls and does not define. *)

Record Env : Type := {
  (* script/script.h *)
  GetOp : CScript -> option (opcodetype * list byte * CScript);
  GetOpretData : CScript -> bool * list (list byte);
  IsOpReturn : CScript -> bool;
  IsPayToCryptoCondition : CScript -> bool * list (list byte);
  push_int64 : CScript -> Z -> CScript;
  push_vector : CScript -> list byte -> CScript;
  push_opcode : CScript -> opcodetype -> CScript;
  nMaxDatacarrierBytes : Z;
  (* CoinbaseGuard.h *)
  OPRETTYPE_STAKEPARAMS : Z;
  OPRETTYPE_STAKECHEAT : Z;
  validateSig_default : bool;
  (* pubkey.h: [pk_IsValid vch], the bytes [vch] are those of a valid key
     (the test of the vector constructor, see [CPubKey_of_vector]) *)
  pk_IsValid : list byte -> bool;
  pk_IsFullyValid : CPubKey -> bool;
  (* main.h, chain state and consensus parameters *)
  myGetTransaction : uint256 -> option (CTransaction * uint256);
  mapBlockIndex : uint256 -> option Z;
  VERUS_MIN_STAKEAGE : Z;
  Solver : CScript -> bool * txnouttype * list (list byte);
  CurrentEpochBranchId : Z -> Z;
  VerifyScript : CScript -> CScript -> CTransaction -> Z -> Z -> Z -> bool;
  IsCoinBase : CTransaction -> bool;
  (* hash.h and streams.h *)
  VerusHash : uint256 -> Z -> uint256;
  Serialize : CTransaction -> list byte;
  Unserialize : list byte -> option CTransaction;
  (* cc/CCinclude.h *)
  EVAL_COINBASEGUARD : Z;
  COptCCParams_VERSION : Z;
  CChexstr : CPubKey;
  MakeCC1of2vout : Z -> Z -> CPubKey -> CPubKey -> CTxOut;
  COptCCParams_AsVector : COptCCParams -> list byte;
  COptCCParams_parse : list byte -> COptCCParams;
  COptCCParams_IsValid : COptCCParams -> bool;
  GetCryptoCondition : CScript -> option CC;
  GetCCParams : CTransaction -> Z -> option (CTransaction * list (list byte) * list (list byte))
}.

(** The contract of [CScript::GetOp] the decoder relies on: a successful
    read advances the iterator by at least the opcode byte, and the pushed
    vector is taken from the bytes it advanced over. The iterator [pc] of the
    source is the part of the script not read yet. *)
Definition GetOp_consumes (E : Env) : Prop :=
  forall (s : CScript) (op : opcodetype) (vch : list byte) (rest : CScript),
    GetOp E s = Some (op, vch, rest) ->
    (length vch + length rest < length s)%nat.

(** Modelled from the spec: the vector constructor [CPubKey(vch)] of
    pubkey.h, which is not among the sources. It keeps the bytes of a
    vector that parses to a valid key, the test being the collaborator
    [pk_IsValid], and gives the invalid key [CPubKey()] for every other
    vector. *)
Definition CPubKey_of_vector (E : Env) (vch : list byte) : CPubKey :=
  if pk_IsValid E vch then vch else CPubKey_default.

(** ** The program *)

Definition IsData (opcode : opcodetype) : bool :=
  ((0 <=? opcode) && (opcode <=? OP_PUSHDATA4)) || ((OP_1 <=? opcode) && (opcode <=? OP_16)).

Section Program.

Variable E : Env.

(** The [for] loop of [UnpackStakeOpRet]. One unit of [fuel] is spent per
    evaluation of the loop condition. [isValid] is the variable of the
    source: the condition assigns it only when the size test before it
    holds. *)
Fixpoint unpack_loop (fuel : nat) (pc : CScript) (bytesTotal : Z) (isValid : bool)
    (vData : list (list byte)) : result (bool * list (list byte)) :=
  match fuel with
  | O => Fault OutOfFuel
  | S fuel' =>
      if bytesTotal <=? nMaxDatacarrierBytes E then
        match pc with
        | [] => Ok (true, vData)
        | _ :: _ =>
            match GetOp E pc with
            | None => Ok (false, vData)
            | Some (op, vch, pc') =>
                if IsData op then
                  let vch' :=
                    if (OP_1 <=? op) && (op <=? OP_16)
                    then [byte_of_Z ((op - OP_1) + 1)]
                    else vch in
                  unpack_loop fuel' pc' (wrap32 (bytesTotal + size vch')) false (vData ++ [vch'])
                else Ok (false, vData)
            end
        end
      else Ok (isValid, vData)
  end.

Definition UnpackStakeOpRet (stakeTx : CTransaction) : result (bool * list (list byte)) :=
  last_out <- vec_at (vout stakeTx) (size (vout stakeTx) - 1) ;;
  let '(isValid, vData) := GetOpretData E (scriptPubKey last_out) in
  if isValid && (size vData =? 1) then
    data <- vec_at vData 0 ;;
    ' (isValid', vData') <- unpack_loop (S (length data)) data 0 isValid [] ;;
    if isValid' && (STAKE_MINPARAMS <=? size vData') && (size vData' <=? STAKE_MAXPARAMS)
    then Ok (true, vData')
    else Ok (false, vData')
  else Ok (false, vData).

(** [for (i = 0; i < size; i++) h = h | v[i] << (8 * i)]. *)
Fixpoint le_accumulate (v : list byte) (i : Z) (h : Z) : Z :=
  match v with
  | [] => h
  | b :: v' => le_accumulate v' (i + 1) (Z.lor h (wrap32 (Z.shiftl (b2z b) (8 * i))))
  end.

(** [CStakeParams::CStakeParams(vData)]. *)
Definition CStakeParams_ctor (vData : list (list byte)) : result CStakeParams :=
  cond <-
    (d0 <- vec_at vData 0 ;; Ok (size d0 =? 1))
    &&& (d0 <- vec_at vData 0 ;; t <- vec_at d0 0 ;; Ok (b2z t =? OPRETTYPE_STAKEPARAMS E))
    &&& (d1 <- vec_at vData 1 ;; Ok (size d1 <=? 4))
    &&& (d2 <- vec_at vData 2 ;; Ok (size d2 <=? 4))
    &&& (d3 <- vec_at vData 3 ;; Ok (size d3 =? 32))
    &&& (Ok (size vData =? STAKE_MINPARAMS)
         ||| (Ok (size vData =? STAKE_MAXPARAMS)
              &&& (d4 <- vec_at vData 4 ;; Ok (size d4 =? 33)))) ;;
  if cond then
    d1 <- vec_at vData 1 ;;
    d2 <- vec_at vData 2 ;;
    d3 <- vec_at vData 3 ;;
    let src := le_accumulate d1 0 0 in
    let blk := le_accumulate d2 0 0 in
    h <- uint256_of_vector d3 ;;
    if size vData =? 4 then
      Ok {| srcHeight := src; blkHeight := blk; prevHash := h; pk := CPubKey_default |}
    else
      d4 <- vec_at vData 4 ;;
      if size d4 =? 33 then
        let k := CPubKey_of_vector E d4 in
        Ok {| srcHeight := if CPubKey_IsValid k then src else 0;
              blkHeight := blk; prevHash := h; pk := k |}
      else
        Ok {| srcHeight := 0; blkHeight := blk; prevHash := h; pk := CPubKey_default |}
  else
    Ok CStakeParams_default.

Definition GetStakeParams (stakeTx : CTransaction) (stakeParams : CStakeParams)
  : result (bool * CStakeParams) :=
  shape <-
    Ok (size (vin stakeTx) =? 1)
    &&& Ok (size (vout stakeTx) =? 2)
    &&& (o0 <- vec_at (vout stakeTx) 0 ;; Ok (0 <? nValue o0))
    &&& (o1 <- vec_at (vout stakeTx) 1 ;; Ok (IsOpReturn E (scriptPubKey o1))) ;;
  if shape then
    ' (unpacked, vData) <- UnpackStakeOpRet stakeTx ;;
    if unpacked then
      p <- CStakeParams_ctor vData ;;
      Ok (IsValid p, p)
    else Ok (false, stakeParams)
  else Ok (false, stakeParams).

(** [ValidateStakeTransaction]. The stake age test subtracts two [uint32_t]
    and compares the difference with the [int32_t] constant
    [VERUS_MIN_STAKEAGE], which the comparison converts to [uint32_t]; the
    height of the block index is converted the same way.
    [mapBlockIndex[blkHash]] is read as a lookup: a missing key and a null
    entry are both [None] (the null entry that [operator[]] inserts for a
    missing key is not tracked). *)
Definition ValidateStakeTransaction (stakeTx : CTransaction) (stakeParams : CStakeParams)
    (validateSig : bool) : result (bool * CStakeParams) :=
  ' (decoded, stakeParams) <- GetStakeParams stakeTx stakeParams ;;
  if decoded then
    in0 <- vec_at (vin stakeTx) 0 ;;
    match myGetTransaction E (hash (prevout in0)) with
    | Some (srcTx, blkHash) =>
        match mapBlockIndex E blkHash with
        | Some pindex_height =>
            ' (solved, txType, vAddr) <-
              (if (srcHeight stakeParams =? wrap32 pindex_height)
                  && (wrap32 (blkHeight stakeParams - srcHeight stakeParams)
                      >=? wrap32 (VERUS_MIN_STAKEAGE E))
               then
                 src_out <- vec_at (vout srcTx) (n (prevout in0)) ;;
                 Ok (Solver E (scriptPubKey src_out))
               else Ok (false, TX_NONSTANDARD, [])) ;;
            if solved then
              stakeParams <-
                (if is_TX_PUBKEY txType && negb (CPubKey_IsValid (pk stakeParams))
                 then
                   a0 <- vec_at vAddr 0 ;;
                   Ok {| srcHeight := srcHeight stakeParams;
                         blkHeight := blkHeight stakeParams;
                         prevHash := prevHash stakeParams;
                         pk := CPubKey_of_vector E a0 |}
                 else Ok stakeParams) ;;
              if is_TX_PUBKEY txType
                 || (is_TX_PUBKEYHASH txType && pk_IsFullyValid E (pk stakeParams))
              then
                let consensusBranchId := CurrentEpochBranchId E (blkHeight stakeParams) in
                verified <-
                  Ok (negb validateSig)
                  ||| (src_out <- vec_at (vout srcTx) (n (prevout in0)) ;;
                       Ok (VerifyScript E (scriptSig in0) (scriptPubKey src_out)
                             stakeTx 0 (nValue src_out) consensusBranchId)) ;;
                Ok (verified, stakeParams)
              else Ok (false, stakeParams)
            else Ok (false, stakeParams)
        | None => Ok (false, stakeParams)
        end
    | None => Ok (false, stakeParams)
    end
  else Ok (false, stakeParams).

(** The height chunk of [MakeGuardedOutput]:
    [height[i] = (p.blkHeight >> (8 * i)) & 0xff] for [i = 0 .. 3]. *)
Definition height_bytes (blkHeight : Z) : list byte :=
  map (fun i => byte_of_Z (Z.land (Z.shiftr blkHeight (8 * i)) 0xff)) [0; 1; 2; 3].

(** [MakeGuardedOutput]; the pair is the returned flag and the out-parameter
    [vout]. *)
Definition MakeGuardedOutput (value : Z) (dest : CPubKey) (stakeTx : CTransaction)
  : result (bool * CTxOut) :=
  let ccAddress := CChexstr E in
  let vout := MakeCC1of2vout E (EVAL_COINBASEGUARD E) value dest ccAddress in
  let vPubKeys := [dest; ccAddress] in
  in0 <- vec_at (vin stakeTx) 0 ;;
  let utxo := VerusHash E (hash (prevout in0)) (n (prevout in0)) in
  let vData := [utxo] in
  ' (decoded, p) <- GetStakeParams stakeTx CStakeParams_default ;;
  if decoded then
    let vData := vData ++ [prevHash p] in
    let height := height_bytes (blkHeight p) in
    let vData := vData ++ [height] in
    let ccp := {| ccp_version := COptCCParams_VERSION E;
                  ccp_evalCode := EVAL_COINBASEGUARD E;
                  ccp_m := 1; ccp_n := 2;
                  ccp_vKeys := vPubKeys; ccp_vData := vData |} in
    Ok (true,
        {| nValue := nValue vout;
           scriptPubKey :=
             push_opcode E (push_vector E (scriptPubKey vout) (COptCCParams_AsVector E ccp))
               OP_DROP |})
  else Ok (false, vout).

(** The height loop of [ValidateMatchingStake]:
    [height = height << 8 + ccp.vData[2][i]], in which [+] binds tighter
    than [<<]. *)
Definition reconstruct_height (chunk : list byte) : Z :=
  fold_left (fun height b => shl32 height (8 + b2z b)) chunk 0.

(** [ValidateMatchingStake]; the pair is the returned flag ("matches") and
    the out-parameter [cheating]. *)
Definition ValidateMatchingStake (ccTx : CTransaction) (voutNum : Z) (stakeTx : CTransaction)
  : result (bool * bool) :=
  if IsCoinBase E ccTx then
    ' (valid, p) <-
      ValidateStakeTransaction stakeTx CStakeParams_default (validateSig_default E) ;;
    if valid then
      cc_out <- vec_at (vout ccTx) voutNum ;;
      let '(isCC, vParams) := IsPayToCryptoCondition E (scriptPubKey cc_out) in
      if isCC && (0 <? size vParams) then
        vp0 <- vec_at vParams 0 ;;
        let ccp := COptCCParams_parse E vp0 in
        shaped <-
          Ok (COptCCParams_IsValid E ccp && (3 <=? size (ccp_vData ccp)))
          &&& (d2 <- vec_at (ccp_vData ccp) 2 ;; Ok (size d2 <=? 4)) ;;
        if shaped then
          in0 <- vec_at (vin stakeTx) 0 ;;
          let utxo := VerusHash E (hash (prevout in0)) (n (prevout in0)) in
          d2 <- vec_at (ccp_vData ccp) 2 ;;
          let height := reconstruct_height d2 in
          d0 <- vec_at (ccp_vData ccp) 0 ;;
          recorded_utxo <- uint256_of_vector d0 ;;
          if bytes_eqb utxo recorded_utxo then
            d1 <- vec_at (ccp_vData ccp) 1 ;;
            recorded_prevHash <- uint256_of_vector d1 ;;
            if negb (bytes_eqb (prevHash p) recorded_prevHash) && (blkHeight p >=? height)
            then Ok (true, true)
            else if blkHeight p =? height then Ok (true, false)
            else Ok (false, false)
          else Ok (false, false)
        else Ok (false, false)
      else Ok (false, false)
    else Ok (false, false)
  else Ok (false, false).

(** [MakeCheatEvidence]; the pair of a result would be the returned flag and
    the transaction [mtx] after the call. The function is declared [bool]
    and has no [return] statement: on both paths control reaches its closing
    brace, the fault [MissingReturn], so that no call has a result. *)
Definition MakeCheatEvidence (mtx ccTx : CTransaction) (voutNum : Z) (cheatTx : CTransaction)
  : result (bool * CTransaction) :=
  ' (matches, isCheater) <- ValidateMatchingStake ccTx voutNum cheatTx ;;
  _ <-
    (if matches && isCheater then
       let vch := Serialize E cheatTx in
       let vData := push_vector E (push_int64 E [] (OPRETTYPE_STAKECHEAT E)) vch in
       let vOut := {| nValue := 0;
                      scriptPubKey := push_vector E (push_opcode E [] OP_RETURN) vData |} in
       Ok {| nVersion := nVersion mtx; vin := vin mtx;
             vout := vout mtx ++ [vOut]; nLockTime := nLockTime mtx |}
     else Ok mtx) ;;
  Fault MissingReturn.

(** [CoinbaseGuardValidate]. The call of [ValidateMatchingStake] passes
    [validCheat] as the [cheating] out-parameter. The [printf] of the
    condition code and [cc_free] are left out. *)
Definition CoinbaseGuardValidate (tx : CTransaction) (nIn : Z) : result bool :=
  txin <- vec_at (vin tx) nIn ;;
  let cc := GetCryptoCondition E (scriptSig txin) in
  let signedByFirstKey := true in
  let validCheat := false in
  validCheat <-
    match cc with
    | Some _ =>
        match GetCCParams E tx nIn with
        | Some (txOut, preConditions, params) =>
            _ <- (if (0 <? size preConditions) && (0 <? size params)
                  then pre1 <- vec_at preConditions 1 ;; Ok (Some (COptCCParams_parse E pre1))
                  else Ok None) ;;
            cheat_passed <-
              Ok (negb signedByFirstKey)
              &&& Ok (1 <? size params)
              &&& (p0 <- vec_at params 0 ;;
                   tag <- vec_at p0 0 ;;
                   Ok (b2z tag =? OPRETTYPE_STAKECHEAT E)) ;;
            if cheat_passed then
              p1 <- vec_at params 1 ;;
              match Unserialize E p1 with
              | Some cheatTx =>
                  in0 <- vec_at (vin tx) 0 ;;
                  ' (matches, cheating) <- ValidateMatchingStake txOut (n (prevout in0)) tx ;;
                  if negb matches then Ok false else Ok cheating
              | None => Ok false
              end
            else Ok validCheat
        | None => Ok validCheat
        end
    | None => Ok validCheat
    end ;;
  Ok (signedByFirstKey || validCheat).

End Program.

(** ** A test double of the collaborators

    [Mock.env] instantiates [Env] with the script push encoding
    (direct pushes, OP_PUSHDATA1/2/4, OP_1..OP_16), table lookups for the
    chain, and stand-ins for the cryptography: a signature is the fixed
    script [valid_sig], a key is valid when its header byte fits its length,
    and the coin fingerprint keeps 28 bytes of the transaction id followed by
    the output index. The concrete transactions used by the examples are
    defined over it. *)
Module Mock.

Definition le_bytes (k : nat) (z : Z) : list byte :=
  map (fun i => byte_of_Z (Z.shiftr z (8 * Z.of_nat i))) (seq 0 k).

Fixpoint le_value (v : list byte) : Z :=
  match v with
  | [] => 0
  | b :: v' => b2z b + 256 * le_value v'
  end.

Definition read_push (opcode : opcodetype) (nSize : Z) (pc : CScript)
  : option (opcodetype * list byte * CScript) :=
  if size pc <? nSize then None
  else Some (opcode, firstn (Z.to_nat nSize) pc, skipn (Z.to_nat nSize) pc).

Definition read_sized (opcode : opcodetype) (k : nat) (pc : CScript)
  : option (opcodetype * list byte * CScript) :=
  if size pc <? Z.of_nat k then None
  else read_push opcode (le_value (firstn k pc)) (skipn k pc).

Definition getOp (pc : CScript) : option (opcodetype * list byte * CScript) :=
  match pc with
  | [] => None
  | b :: pc1 =>
      let opcode := b2z b in
      if opcode <=? OP_PUSHDATA4 then
        if opcode <? OP_PUSHDATA1 then read_push opcode opcode pc1
        else if opcode =? OP_PUSHDATA1 then read_sized opcode 1 pc1
        else if opcode =? OP_PUSHDATA2 then read_sized opcode 2 pc1
        else read_sized opcode 4 pc1
      else Some (opcode, [], pc1)
  end.

Fixpoint read_all (fuel : nat) (pc : CScript) (acc : list (opcodetype * list byte))
  : bool * list (opcodetype * list byte) :=
  match pc with
  | [] => (true, acc)
  | _ :: _ =>
      match fuel with
      | O => (false, acc)
      | S fuel' =>
          match getOp pc with
          | Some (op, vch, pc') => read_all fuel' pc' (acc ++ [(op, vch)])
          | None => (false, acc)
          end
      end
  end.

Definition ops_of (s : CScript) : bool * list (opcodetype * list byte) :=
  read_all (length s) s [].

Definition getOpretData (s : CScript) : bool * list (list byte) :=
  match getOp s with
  | Some (op, _, pc) =>
      if op =? OP_RETURN then
        let '(ok, ops) := ops_of pc in
        (ok && negb (size ops =? 0), map snd ops)
      else (false, [])
  | None => (false, [])
  end.

Definition isOpReturn (s : CScript) : bool :=
  match s with
  | b :: _ => b2z b =? OP_RETURN
  | [] => false
  end.

Definition pushOpcode (s : CScript) (op : opcodetype) : CScript := s ++ [byte_of_Z op].

Definition pushVector (s : CScript) (v : list byte) : CScript :=
  if size v <? OP_PUSHDATA1 then s ++ [byte_of_Z (size v)] ++ v
  else if size v <=? 0xff then s ++ [byte_of_Z OP_PUSHDATA1] ++ le_bytes 1 (size v) ++ v
  else if size v <=? 0xffff then s ++ [byte_of_Z OP_PUSHDATA2] ++ le_bytes 2 (size v) ++ v
  else s ++ [byte_of_Z OP_PUSHDATA4] ++ le_bytes 4 (size v) ++ v.

Definition pushInt64 (s : CScript) (v : Z) : CScript :=
  if (v =? -1) || ((1 <=? v) && (v <=? 16)) then pushOpcode s (v + (OP_1 - 1))
  else if v =? 0 then pushOpcode s 0
  else pushVector s (le_bytes 8 v).

Definition isPayToCryptoCondition (s : CScript) : bool * list (list byte) :=
  match ops_of s with
  | (true, [(_, _); (cc, _)]) => (cc =? OP_CHECKCRYPTOCONDITION, [])
  | (true, [(_, _); (cc, _); (_, params); (drop, _)]) =>
      if (cc =? OP_CHECKCRYPTOCONDITION) && (drop =? OP_DROP) then (true, [params])
      else (false, [])
  | _ => (false, [])
  end.

Definition pkIsValid (k : CPubKey) : bool :=
  match k with
  | b :: _ =>
      ((size k =? 33) && ((b2z b =? 2) || (b2z b =? 3)))
      || ((size k =? 65) && ((b2z b =? 4) || (b2z b =? 6) || (b2z b =? 7)))
  | [] => false
  end.

Definition solver (s : CScript) : bool * txnouttype * list (list byte) :=
  match ops_of s with
  | (true, [(_, key); (op, _)]) =>
      if (op =? OP_CHECKSIG) && ((size key =? 33) || (size key =? 65))
      then (true, TX_PUBKEY, [key])
      else (false, TX_NONSTANDARD, [])
  | (true, [(0x76, _); (0xa9, _); (_, h); (0x88, _); (0xac, _)]) =>
      if size h =? 20 then (true, TX_PUBKEYHASH, [h]) else (false, TX_NONSTANDARD, [])
  | _ => (false, TX_NONSTANDARD, [])
  end.

Definition valid_sig : CScript := [Byte.x01; Byte.x30].

Definition isCoinBase (tx : CTransaction) : bool :=
  match vin tx with
  | [i] => bytes_eqb (hash (prevout i)) uint256_zero && (n (prevout i) =? 2 ^ 32 - 1)
  | _ => false
  end.

Definition verusHash (txid : uint256) (index : Z) : uint256 :=
  firstn 28 txid ++ le_bytes 4 index.

Definition serialize (tx : CTransaction) : list byte :=
  le_bytes 4 (nVersion tx)
  ++ [byte_of_Z (size (vin tx))]
  ++ concat (map (fun i => hash (prevout i) ++ le_bytes 4 (n (prevout i))
                           ++ pushVector [] (scriptSig i)) (vin tx))
  ++ [byte_of_Z (size (vout tx))]
  ++ concat (map (fun o => le_bytes 8 (nValue o) ++ pushVector [] (scriptPubKey o)) (vout tx))
  ++ le_bytes 4 (nLockTime tx).

Definition makeCC1of2vout (evalcode value : Z) (pk1 pk2 : CPubKey) : CTxOut :=
  {| nValue := value;
     scriptPubKey :=
       pushOpcode (pushVector [] (byte_of_Z evalcode :: firstn 16 pk1 ++ firstn 16 pk2))
         OP_CHECKCRYPTOCONDITION |}.

Definition ccpAsVector (p : COptCCParams) : list byte :=
  let header := map byte_of_Z [ccp_version p; ccp_evalCode p; ccp_m p; ccp_n p] in
  fold_left pushVector (ccp_vKeys p ++ ccp_vData p) (pushVector [] header).

Definition COptCCParams_invalid : COptCCParams :=
  {| ccp_version := 0; ccp_evalCode := 0; ccp_m := 0; ccp_n := 0;
     ccp_vKeys := []; ccp_vData := [] |}.

Definition ccpParse (v : list byte) : COptCCParams :=
  match ops_of v with
  | (true, (_, [ver; ev; m; k]) :: rest) =>
      if size rest <? b2z k then COptCCParams_invalid
      else {| ccp_version := b2z ver; ccp_evalCode := b2z ev;
              ccp_m := b2z m; ccp_n := b2z k;
              ccp_vKeys := map snd (firstn (Z.to_nat (b2z k)) rest);
              ccp_vData := map snd (skipn (Z.to_nat (b2z k)) rest) |}
  | _ => COptCCParams_invalid
  end.

Definition getCryptoCondition (sig : CScript) : option CC :=
  match sig with
  | b :: _ => Some {| cc_code := b2z b |}
  | [] => None
  end.

(** The chain: confirmed transactions by id with the hash of their block,
    block heights by block hash, and the transactions the deserialiser
    recognises. *)
Record chain : Type := {
  confirmed : list (uint256 * (CTransaction * uint256));
  blocks : list (uint256 * Z);
  known : list CTransaction
}.

Definition lookup {A : Type} (k : uint256) (l : list (uint256 * A)) : option A :=
  option_map snd (find (fun e => bytes_eqb (fst e) k) l).

Definition unserialize (c : chain) (v : list byte) : option CTransaction :=
  find (fun t => bytes_eqb (serialize t) v) (known c).

Definition getCCParams (c : chain) (tx : CTransaction) (nIn : Z)
  : option (CTransaction * list (list byte) * list (list byte)) :=
  match nth_error (vin tx) (Z.to_nat nIn) with
  | Some i =>
      match lookup (hash (prevout i)) (confirmed c) with
      | Some (txOut, _) =>
          match nth_error (vout txOut) (Z.to_nat (n (prevout i))) with
          | Some o =>
              let '(isCC, preConditions) := isPayToCryptoCondition (scriptPubKey o) in
              let params :=
                match getOpretData (scriptPubKey (last (vout tx) CTxOut_default)) with
                | (true, [data]) => map snd (snd (ops_of data))
                | _ => []
                end in
              if isCC then Some (txOut, preConditions, params) else None
          | None => None
          end
      | None => None
      end
  | None => None
  end.

Definition env (cap : Z) (c : chain) : Env :=
  {| GetOp := getOp;
     GetOpretData := getOpretData;
     IsOpReturn := isOpReturn;
     IsPayToCryptoCondition := isPayToCryptoCondition;
     push_int64 := pushInt64;
     push_vector := pushVector;
     push_opcode := pushOpcode;
     nMaxDatacarrierBytes := cap;
     OPRETTYPE_STAKEPARAMS := 1;
     OPRETTYPE_STAKECHEAT := 2;
     validateSig_default := true;
     pk_IsValid := pkIsValid;
     pk_IsFullyValid := pkIsValid;
     myGetTransaction := fun txid => lookup txid (confirmed c);
     mapBlockIndex := fun h => lookup h (blocks c);
     VERUS_MIN_STAKEAGE := 150;
     Solver := solver;
     CurrentEpochBranchId := fun _ => 0;
     VerifyScript := fun sig _ _ _ _ _ => bytes_eqb sig valid_sig;
     IsCoinBase := isCoinBase;
     VerusHash := verusHash;
     Serialize := serialize;
     Unserialize := unserialize c;
     EVAL_COINBASEGUARD := 1;
     COptCCParams_VERSION := 1;
     CChexstr := Byte.x02 :: repeat Byte.x33 32;
     MakeCC1of2vout := makeCC1of2vout;
     COptCCParams_AsVector := ccpAsVector;
     COptCCParams_parse := ccpParse;
     COptCCParams_IsValid := fun p => negb (ccp_version p =? 0);
     GetCryptoCondition := getCryptoCondition;
     GetCCParams := getCCParams c |}.

(** *** The scenario

    A coin confirmed at height 257 and paid to [pk_staker]; stake
    transactions over that coin; a coinbase whose output 0 is the guarded
    output [MakeGuardedOutput] builds from the stake [stake_1285_H1]; and
    spends of that output. *)

Definition pk_staker : CPubKey := Byte.x02 :: repeat Byte.x11 32.
Definition pk_dest : CPubKey := Byte.x03 :: repeat Byte.x22 32.
Definition pk_delegate : CPubKey := Byte.x02 :: repeat Byte.x44 32.

Definition txid_coin : uint256 := repeat Byte.xc1 32.
Definition txid_reward : uint256 := repeat Byte.xc2 32.
Definition block_257 : uint256 := repeat Byte.xb1 32.
Definition block_1285 : uint256 := repeat Byte.xb2 32.
Definition H1 : uint256 := repeat Byte.xa1 32.
Definition H2 : uint256 := repeat Byte.xa2 32.

Definition p2pk (k : CPubKey) : CScript := pushOpcode (pushVector [] k) OP_CHECKSIG.

Definition stake_data (chunks : list (list byte)) : CScript :=
  fold_left pushVector chunks (pushInt64 [] 1).

Definition opret (data : CScript) : CScript := pushVector (pushOpcode [] OP_RETURN) data.

Definition spend_coin (sig : CScript) (outs : list CTxOut) : CTransaction :=
  {| nVersion := 1;
     vin := [ {| prevout := {| hash := txid_coin; n := 0 |}; scriptSig := sig |} ];
     vout := outs;
     nLockTime := 0 |}.

Definition stake_tx (sig : CScript) (chunks : list (list byte)) : CTransaction :=
  spend_coin sig [ {| nValue := 5000; scriptPubKey := p2pk pk_staker |};
                   {| nValue := 0; scriptPubKey := opret (stake_data chunks) |} ].

Definition coin_tx : CTransaction :=
  {| nVersion := 1;
     vin := [ {| prevout := {| hash := repeat Byte.xc0 32; n := 1 |}; scriptSig := valid_sig |} ];
     vout := [ {| nValue := 5000; scriptPubKey := p2pk pk_staker |} ];
     nLockTime := 0 |}.

(** source 257, target 1285, previous block [H1]: the rewarded claim. *)
Definition stake_1285_H1 : CTransaction :=
  stake_tx valid_sig [le_bytes 4 257; le_bytes 4 1285; H1].

(** The same coin staked on the fork [H2], toward the earlier height 1028. *)
Definition stake_1028_H2 : CTransaction :=
  stake_tx valid_sig [le_bytes 4 257; le_bytes 4 1028; H2].

(** The same coin staked on the fork [H2], toward the later height 1542. *)
Definition stake_1542_H2 : CTransaction :=
  stake_tx valid_sig [le_bytes 4 257; le_bytes 4 1542; H2].

(** A claim whose target height 16 lies below its source height 257. *)
Definition stake_16_H1 : CTransaction :=
  stake_tx valid_sig [le_bytes 4 257; le_bytes 1 16; H1].

(** The rewarded claim without a valid signature. *)
Definition stake_unsigned : CTransaction :=
  stake_tx [] [le_bytes 4 257; le_bytes 4 1285; H1].

(** The rewarded claim with a delegate key as fifth chunk. *)
Definition stake_delegated : CTransaction :=
  stake_tx valid_sig [le_bytes 4 257; le_bytes 4 1285; H1; pk_delegate].

(** The rewarded claim over a coin the chain does not know. *)
Definition stake_unknown_coin : CTransaction :=
  {| nVersion := 1;
     vin := [ {| prevout := {| hash := repeat Byte.xee 32; n := 0 |}; scriptSig := valid_sig |} ];
     vout := vout stake_1285_H1;
     nLockTime := 0 |}.

(** Three chunks only. *)
Definition stake_short : CTransaction :=
  stake_tx valid_sig [le_bytes 4 257; le_bytes 4 1285].

Definition coin_chain : chain :=
  {| confirmed := [(txid_coin, (coin_tx, block_257))];
     blocks := [(block_257, 257)];
     known := [] |}.

Definition guarded_output : CTxOut :=
  match MakeGuardedOutput (env 8192 coin_chain) 100 pk_dest stake_1285_H1 with
  | Ok (_, o) => o
  | Fault _ => CTxOut_default
  end.

Definition reward_tx : CTransaction :=
  {| nVersion := 1;
     vin := [ {| prevout := {| hash := uint256_zero; n := 2 ^ 32 - 1 |}; scriptSig := [] |} ];
     vout := [ guarded_output ];
     nLockTime := 0 |}.

Definition main_chain : chain :=
  {| confirmed := [(txid_coin, (coin_tx, block_257)); (txid_reward, (reward_tx, block_1285))];
     blocks := [(block_257, 257); (block_1285, 1285)];
     known := [stake_1285_H1; stake_1028_H2; stake_1542_H2] |}.

Definition E0 : Env := env 8192 main_chain.

(** The datacarrier limit lowered to 40 bytes. *)
Definition E40 : Env := env 40 main_chain.

(** A spend of the guarded output whose fulfillment is made with the guard
    authority's key (the second key of the 1-of-2 condition), paying
    [pk_staker], followed by the outputs [evidence]. *)
Definition slash_tx (evidence : list CTxOut) : CTransaction :=
  {| nVersion := 1;
     vin := [ {| prevout := {| hash := txid_reward; n := 0 |}; scriptSig := [Byte.x02] |} ];
     vout := {| nValue := 100; scriptPubKey := p2pk pk_staker |} :: evidence;
     nLockTime := 0 |}.

End Mock.

(** *** Further transactions of the scenario *)
Module Edge.

(** The chunks of [Mock.stake_1285_H1]. *)
Definition chunks_1285 : list (list byte) :=
  [[Byte.x01]; Mock.le_bytes 4 257; Mock.le_bytes 4 1285; Mock.H1].

(** The input of the stakes of the scenario: output 0 of [Mock.coin_tx]. *)
Definition coin_input : CTxIn :=
  {| prevout := {| hash := Mock.txid_coin; n := 0 |}; scriptSig := Mock.valid_sig |}.

(** The rewarded claim, spending output 7 of [Mock.coin_tx], which has a
    single output. *)
Definition stake_bad_index : CTransaction :=
  {| nVersion := 1;
     vin := [ {| prevout := {| hash := Mock.txid_coin; n := 7 |};
                 scriptSig := Mock.valid_sig |} ];
     vout := vout Mock.stake_1285_H1;
     nLockTime := 0 |}.

(** The spend of the guarded output that carries the later stake on the
    other fork as evidence: a zero-value [OP_RETURN] output holding the
    evidence tag and the serialised stake. *)
Definition slash_with_evidence : CTransaction :=
  Mock.slash_tx
    [ {| nValue := 0;
         scriptPubKey :=
           push_vector Mock.E0 (push_opcode Mock.E0 [] OP_RETURN)
             (push_vector Mock.E0 (push_int64 Mock.E0 [] (OPRETTYPE_STAKECHEAT Mock.E0))
                (Serialize Mock.E0 Mock.stake_1542_H2)) |} ].

End Edge.

(** ** Notions of the specification *)

(** The number of bytes carried by a list of chunks. *)
Definition total_bytes (chunks : list (list byte)) : Z :=
  fold_right (fun c acc => size c + acc) 0 chunks.

(** The chunks of a metadata blob as the specification reads them, with no
    size limit: every instruction is a data push, and a small-integer
    opcode stands for the single byte 1..16. [None] when some instruction
    is not a push or cannot be read. *)
Fixpoint chunks_of (E : Env) (fuel : nat) (pc : CScript) : option (list (list byte)) :=
  match fuel with
  | O => None
  | S fuel' =>
      match pc with
      | [] => Some []
      | _ :: _ =>
          match GetOp E pc with
          | Some (op, vch, pc') =>
              if IsData op then
                option_map
                  (cons (if (OP_1 <=? op) && (op <=? OP_16)
                         then [byte_of_Z ((op - OP_1) + 1)] else vch))
                  (chunks_of E fuel' pc')
              else None
          | None => None
          end
      end
  end.

Definition blob_chunks (E : Env) (data : CScript) : option (list (list byte)) :=
  chunks_of E (S (length data)) data.

(** The structural violations of a chunk list the specification names:
    a chunk count outside 4..5, a wrong type tag, a height chunk longer
    than 4 bytes, a hash chunk that is not 32 bytes, a fifth chunk that is
    not a valid 33-byte public key. *)
Definition structural_violation (E : Env) (vData : list (list byte)) : bool :=
  match vData with
  | d0 :: d1 :: d2 :: d3 :: rest =>
      negb (match d0 with [t] => b2z t =? OPRETTYPE_STAKEPARAMS E | _ => false end)
      || (4 <? size d1)
      || (4 <? size d2)
      || negb (size d3 =? 32)
      || match rest with
         | [] => false
         | [d4] => negb ((size d4 =? 33) && pk_IsValid E d4)
         | _ => true
         end
  | _ => true
  end.

(** The value of a chunk read as a little-endian number. *)
Fixpoint little_endian (v : list byte) : Z :=
  match v with
  | [] => 0
  | b :: v' => b2z b + 256 * little_endian v'
  end.

(** The parameters a chunk list without structural violation decodes to:
    the heights of chunks 1 and 2, the hash of chunk 3, and the key of
    chunk 4 (the empty key when there is none). *)
Definition decoded_params (vData : list (list byte)) : CStakeParams :=
  {| srcHeight := little_endian (nth 1 vData []);
     blkHeight := little_endian (nth 2 vData []);
     prevHash := nth 3 vData [];
     pk := nth 4 vData [] |}.

(** The condition parameters [MakeGuardedOutput] builds from the first input
    of the stake transaction and its decoded parameters, and the script it
    stores in the output. *)
Definition guard_params (E : Env) (dest : CPubKey) (in0 : CTxIn) (p : CStakeParams)
  : COptCCParams :=
  {| ccp_version := COptCCParams_VERSION E;
     ccp_evalCode := EVAL_COINBASEGUARD E;
     ccp_m := 1;
     ccp_n := 2;
     ccp_vKeys := [dest; CChexstr E];
     ccp_vData := [VerusHash E (hash (prevout in0)) (n (prevout in0));
                   prevHash p;
                   height_bytes (blkHeight p)] |}.

Definition guard_script (E : Env) (value : Z) (dest : CPubKey) (in0 : CTxIn)
    (p : CStakeParams) : CScript :=
  push_opcode E
    (push_vector E
       (scriptPubKey (MakeCC1of2vout E (EVAL_COINBASEGUARD E) value dest (CChexstr E)))
       (COptCCParams_AsVector E (guard_params E dest in0 p)))
    OP_DROP.


(** ** Proof automation *)

(** Evaluate [vec_at] on a vector whose shape is known. *)
Ltac vec_at_known :=
  repeat match goal with
         | |- context [vec_at (?a :: ?l) ?i] =>
             let r := eval cbv in (vec_at (a :: l) i) in
             change (vec_at (a :: l) i) with r
         end.

(** Evaluate a size test on a vector whose length is known. *)
Ltac size_known :=
  repeat match goal with
         | |- context [@size ?A ?l =? ?k] =>
             let r := eval cbv in (@size A l =? k) in
             match r with
             | true => change (@size A l =? k) with true
             | false => change (@size A l =? k) with false
             end
         end.

(** Close a goal [exists p, Ok _ = Ok p /\ (_ -> _)] whose two sides hold by
    computation. *)
Ltac rejected := eexists; split; reflexivity.

(** Case analysis on the next fallible step, lookup or test of the goal. *)
Ltac split_result :=
  match goal with
  | |- context [bind ?r _] =>
      lazymatch r with
      | Ok _ => fail
      | Fault _ => fail
      | bind _ _ => fail
      | (if _ then _ else _) => fail
      | _ => destruct r
      end
  | |- context [match ?x with Some _ => _ | None => _ end] => destruct x
  | |- context [let '(_, _) := ?x in _] => destruct x
  | |- context [if ?c then _ else _] => destruct c
  end.

Ltac crunch :=
  repeat (cbn [bind andM orM negb andb orb]; try discriminate; try split_result).

(** * Properties *)

(** ** The result monad and vectors *)

Lemma bind_Ok {A B : Type} (r : result A) (k : A -> result B) (b : B) :
  bind r k = Ok b -> exists a, r = Ok a /\ k a = Ok b.
Proof.
  destruct r as [a|f]; simpl; intros H; [eauto | discriminate].
Qed.

Lemma size_nonneg {A : Type} (v : list A) : 0 <= size v.
Proof. unfold size. lia. Qed.

Lemma size_app {A : Type} (u v : list A) : size (u ++ v) = size u + size v.
Proof. unfold size. rewrite length_app. lia. Qed.

Lemma vec_at_in_range {A : Type} (v : list A) (i : Z) :
  0 <= i < size v -> exists a, vec_at v i = Ok a.
Proof.
  intros Hi. unfold vec_at.
  replace ((0 <=? i) && (i <? size v)) with true
    by (symmetry; apply andb_true_iff; split; [apply Z.leb_le | apply Z.ltb_lt]; lia).
  destruct (nth_error v (Z.to_nat i)) eqn:Hn; [eauto|].
  apply nth_error_None in Hn. unfold size in Hi. lia.
Qed.

Lemma vec_at_Ok_range {A : Type} (v : list A) (i : Z) (a : A) :
  vec_at v i = Ok a -> 0 <= i < size v.
Proof.
  unfold vec_at. destruct ((0 <=? i) && (i <? size v)) eqn:H; [|discriminate].
  apply andb_true_iff in H. destruct H as [H1 H2].
  apply Z.leb_le in H1. apply Z.ltb_lt in H2. lia.
Qed.

Lemma vec_at_head {A : Type} (a : A) (v : list A) : vec_at (a :: v) 0 = Ok a.
Proof.
  unfold vec_at.
  replace ((0 <=? 0) && (0 <? size (a :: v))) with true; [reflexivity|].
  symmetry. apply andb_true_iff. split; [reflexivity|].
  apply Z.ltb_lt. unfold size. simpl length. lia.
Qed.

Lemma total_bytes_app (u v : list (list byte)) :
  total_bytes (u ++ v) = total_bytes u + total_bytes v.
Proof.
  induction u as [|c u IH]; simpl; [lia|]. rewrite IH. lia.
Qed.

Lemma total_bytes_nonneg (v : list (list byte)) : 0 <= total_bytes v.
Proof.
  induction v as [|c v IH]; simpl; [lia|]. pose proof (size_nonneg c). lia.
Qed.

Lemma wrap32_small (z : Z) : 0 <= z < 2 ^ 32 -> wrap32 z = z.
Proof. intros H. unfold wrap32. apply Z.mod_small. exact H. Qed.

(** ** The chunk loop of [UnpackStakeOpRet] *)

Section Loop.

Variable E : Env.
Hypothesis HE : GetOp_consumes E.

(** The chunk the loop body stores for an instruction is no longer than the
    script the instruction was read from. *)
Lemma stored_chunk_fits (pc : CScript) (op : opcodetype) (vch : list byte) (pc' : CScript) :
  GetOp E pc = Some (op, vch, pc') ->
  size (if (OP_1 <=? op) && (op <=? OP_16) then [byte_of_Z ((op - OP_1) + 1)] else vch)
  <= size pc
  /\ (length pc' < length pc)%nat.
Proof.
  intros H. apply HE in H. split; [|lia].
  destruct ((OP_1 <=? op) && (op <=? OP_16)); unfold size; simpl; lia.
Qed.

(** With one unit of fuel more than the script is long the loop returns. *)
Lemma unpack_loop_returns (fuel : nat) :
  forall (pc : CScript) (bytesTotal : Z) (isValid : bool) (vData : list (list byte)),
    (length pc < fuel)%nat ->
    exists r, unpack_loop E fuel pc bytesTotal isValid vData = Ok r.
Proof.
  induction fuel as [|fuel IH]; intros pc bt iv vd Hlen; [lia|].
  simpl. destruct (bt <=? nMaxDatacarrierBytes E); [|eauto].
  destruct pc as [|b pc]; [eauto|].
  destruct (GetOp E (b :: pc)) as [[[op vch] pc']|] eqn:Hop; [|eauto].
  destruct (IsData op); [|eauto].
  apply IH. apply stored_chunk_fits in Hop. simpl in *. lia.
Qed.

(** What the loop has done when it leaves [isValid] set: either it stopped
    at its first size test without touching anything, or it read the whole
    script, stored exactly the chunks of the script, and the bytes stored
    stayed within the limit. *)
Lemma unpack_loop_accepts (fuel : nat) :
  forall (pc : CScript) (bytesTotal : Z) (isValid : bool) (vData vData' : list (list byte)),
    0 <= bytesTotal ->
    nMaxDatacarrierBytes E + size pc < 2 ^ 32 ->
    unpack_loop E fuel pc bytesTotal isValid vData = Ok (true, vData') ->
    (isValid = true /\ vData' = vData /\ nMaxDatacarrierBytes E < bytesTotal)
    \/ (exists cs, vData' = vData ++ cs
                   /\ chunks_of E fuel pc = Some cs
                   /\ bytesTotal + total_bytes cs <= nMaxDatacarrierBytes E).
Proof.
  induction fuel as [|fuel IH]; intros pc bt iv vd vd' Hbt Hcap Hrun; [discriminate|].
  simpl in Hrun. simpl chunks_of.
  destruct (bt <=? nMaxDatacarrierBytes E) eqn:Hle.
  - apply Z.leb_le in Hle. right.
    destruct pc as [|b pc].
    + injection Hrun as <-. exists []. rewrite app_nil_r. simpl. repeat split; lia.
    + destruct (GetOp E (b :: pc)) as [[[op vch] pc']|] eqn:Hop; [|discriminate].
      destruct (IsData op); [|discriminate].
      destruct (stored_chunk_fits _ _ _ _ Hop) as [Hfit Hshort].
      set (c := if (OP_1 <=? op) && (op <=? OP_16)
                then [byte_of_Z ((op - OP_1) + 1)] else vch) in *.
      pose proof (size_nonneg c) as Hc.
      assert (Hpc' : size pc' < size (b :: pc)) by (unfold size; lia).
      rewrite wrap32_small in Hrun by lia.
      apply IH in Hrun; [|lia|lia].
      destruct Hrun as [[Habs _]|[cs [-> [Hcs Hsum]]]]; [discriminate|].
      exists (c :: cs). rewrite Hcs. simpl. rewrite <- app_assoc. simpl.
      repeat split. lia.
  - apply Z.leb_gt in Hle. left. injection Hrun as -> ->. repeat split. exact Hle.
Qed.

End Loop.

(** ** The decoder *)

(** [GetStakeParams] either rejects on the shape of the transaction, leaving
    its out-parameter alone, or hands a transaction with one input and two
    outputs to [UnpackStakeOpRet] and the constructor. *)
Lemma GetStakeParams_cases (E : Env) (stakeTx : CTransaction) (sp : CStakeParams) :
  GetStakeParams E stakeTx sp = Ok (false, sp)
  \/ (size (vin stakeTx) = 1 /\ size (vout stakeTx) = 2
      /\ GetStakeParams E stakeTx sp =
         (' (unpacked, vData) <- UnpackStakeOpRet E stakeTx ;;
          if unpacked then p <- CStakeParams_ctor E vData ;; Ok (IsValid p, p)
          else Ok (false, sp))).
Proof.
  unfold GetStakeParams.
  destruct (size (vin stakeTx) =? 1) eqn:Hin; simpl; [|now left].
  destruct (size (vout stakeTx) =? 2) eqn:Hout; simpl; [|now left].
  apply Z.eqb_eq in Hin, Hout.
  destruct (vec_at_in_range (vout stakeTx) 0 ltac:(lia)) as [o0 ->]. simpl.
  destruct (0 <? nValue o0); simpl; [|now left].
  destruct (vec_at_in_range (vout stakeTx) 1 ltac:(lia)) as [o1 ->]. simpl.
  destruct (IsOpReturn E (scriptPubKey o1)); simpl; [|now left].
  right. auto.
Qed.

(** [UnpackStakeOpRet] returns on every transaction that has an output. *)
Lemma UnpackStakeOpRet_returns (E : Env) (HE : GetOp_consumes E) (stakeTx : CTransaction) :
  0 < size (vout stakeTx) ->
  exists unpacked vData, UnpackStakeOpRet E stakeTx = Ok (unpacked, vData).
Proof.
  intros Hout. unfold UnpackStakeOpRet.
  destruct (vec_at_in_range (vout stakeTx) (size (vout stakeTx) - 1) ltac:(lia)) as [o ->].
  cbn [bind]. destruct (GetOpretData E (scriptPubKey o)) as [isValid vData].
  destruct (isValid && (size vData =? 1)) eqn:Hone; [|eauto].
  apply andb_true_iff in Hone. destruct Hone as [_ Hone]. apply Z.eqb_eq in Hone.
  destruct (vec_at_in_range vData 0 ltac:(lia)) as [data ->]. cbn [bind].
  destruct (unpack_loop_returns E HE (S (length data)) data 0 isValid [] ltac:(lia))
    as [[iv vd] ->].
  cbn [bind]. destruct (iv && (STAKE_MINPARAMS <=? size vd) && (size vd <=? STAKE_MAXPARAMS)); eauto.
Qed.

(** When [UnpackStakeOpRet] accepts, the chunks are those of the blob, there
    are 4 or 5 of them, and they fit the datacarrier limit. *)
Lemma UnpackStakeOpRet_accepts (E : Env) (HE : GetOp_consumes E)
    (stakeTx : CTransaction) (o : CTxOut) (data : CScript) (vData : list (list byte)) :
  vec_at (vout stakeTx) (size (vout stakeTx) - 1) = Ok o ->
  GetOpretData E (scriptPubKey o) = (true, [data]) ->
  nMaxDatacarrierBytes E + size data < 2 ^ 32 ->
  UnpackStakeOpRet E stakeTx = Ok (true, vData) ->
  blob_chunks E data = Some vData
  /\ total_bytes vData <= nMaxDatacarrierBytes E
  /\ 4 <= size vData <= 5.
Proof.
  intros Ho Hdata Hcap. unfold UnpackStakeOpRet. rewrite Ho. cbn [bind]. rewrite Hdata.
  replace (size [data] =? 1) with true by reflexivity.
  rewrite vec_at_head. cbn [bind andb]. intros Hrun. apply bind_Ok in Hrun. destruct Hrun as [[iv vd] [Hloop Hend]].
  destruct (iv && (STAKE_MINPARAMS <=? size vd) && (size vd <=? STAKE_MAXPARAMS)) eqn:Hcount;
    [|discriminate].
  injection Hend as <-.
  apply andb_true_iff in Hcount. destruct Hcount as [Hcount Hmax].
  apply andb_true_iff in Hcount. destruct Hcount as [-> Hmin].
  apply Z.leb_le in Hmin, Hmax. unfold STAKE_MINPARAMS, STAKE_MAXPARAMS in *.
  apply (unpack_loop_accepts E HE) in Hloop; [|lia|exact Hcap].
  destruct Hloop as [[_ [-> _]]|[cs [-> [Hcs Hsum]]]].
  - unfold size in Hmin. simpl in Hmin. lia.
  - simpl in *. unfold blob_chunks. auto.
Qed.

(** C10. [UnpackStakeOpRet] enforces a cumulative size cap: it accepts a
    metadata blob only if the bytes of its chunks total at most
    [nMaxDatacarrierBytes], and a blob all of whose instructions are
    well-formed pushes but whose chunks total more than the cap is refused,
    so that [GetStakeParams] rejects the transaction. ([bytesTotal] is a
    [uint32_t]: the blob is assumed short enough for the sum not to wrap.) *)
Theorem UnpackStakeOpRet_datacarrier_cap (E : Env) (HE : GetOp_consumes E)
    (stakeTx : CTransaction) (o : CTxOut) (data : CScript) :
  vec_at (vout stakeTx) (size (vout stakeTx) - 1) = Ok o ->
  GetOpretData E (scriptPubKey o) = (true, [data]) ->
  nMaxDatacarrierBytes E + size data < 2 ^ 32 ->
  (forall vData,
      UnpackStakeOpRet E stakeTx = Ok (true, vData) ->
      blob_chunks E data = Some vData /\ total_bytes vData <= nMaxDatacarrierBytes E)
  /\ (forall cs,
         blob_chunks E data = Some cs ->
         nMaxDatacarrierBytes E < total_bytes cs ->
         (exists vData, UnpackStakeOpRet E stakeTx = Ok (false, vData))
         /\ forall sp, GetStakeParams E stakeTx sp = Ok (false, sp)).
Proof.
  intros Ho Hdata Hcap. split.
  - intros vData Hrun.
    destruct (UnpackStakeOpRet_accepts E HE _ _ _ _ Ho Hdata Hcap Hrun) as [H1 [H2 _]]. auto.
  - intros cs Hcs Hbig.
    pose proof (vec_at_Ok_range _ _ _ Ho) as Hrange.
    destruct (UnpackStakeOpRet_returns E HE stakeTx ltac:(lia)) as [unpacked [vData Hrun]].
    assert (Hrej : unpacked = false).
    { destruct unpacked; [|reflexivity].
      destruct (UnpackStakeOpRet_accepts E HE _ _ _ _ Ho Hdata Hcap Hrun) as [H1 [H2 _]].
      rewrite Hcs in H1. injection H1 as ->. lia. }
    subst unpacked. split; [eauto|].
    intros sp. destruct (GetStakeParams_cases E stakeTx sp) as [H|[_ [_ ->]]]; [exact H|].
    rewrite Hrun. reflexivity.
Qed.

(** The reader of the test double satisfies the contract of [GetOp]. *)
Lemma mock_read_push_consumes (opcode : opcodetype) (nSize : Z) (pc : CScript)
    (op : opcodetype) (vch : list byte) (rest : CScript) :
  Mock.read_push opcode nSize pc = Some (op, vch, rest) ->
  (length vch + length rest = length pc)%nat.
Proof.
  unfold Mock.read_push. destruct (size pc <? nSize); [discriminate|].
  intros H. injection H as _ <- <-.
  rewrite <- (firstn_skipn (Z.to_nat nSize) pc) at 3. rewrite length_app. reflexivity.
Qed.

Lemma mock_read_sized_consumes (opcode : opcodetype) (k : nat) (pc : CScript)
    (op : opcodetype) (vch : list byte) (rest : CScript) :
  Mock.read_sized opcode k pc = Some (op, vch, rest) ->
  (length vch + length rest <= length pc)%nat.
Proof.
  unfold Mock.read_sized. destruct (size pc <? Z.of_nat k); [discriminate|].
  intros H. apply mock_read_push_consumes in H. rewrite H.
  rewrite length_skipn. lia.
Qed.

Lemma mock_GetOp_consumes (cap : Z) (c : Mock.chain) : GetOp_consumes (Mock.env cap c).
Proof.
  intros s op vch rest. simpl. unfold Mock.getOp.
  destruct s as [|b pc1]; [discriminate|].
  destruct (b2z b <=? OP_PUSHDATA4).
  - destruct (b2z b <? OP_PUSHDATA1).
    + intros H. apply mock_read_push_consumes in H. simpl. lia.
    + destruct (b2z b =? OP_PUSHDATA1); [|destruct (b2z b =? OP_PUSHDATA2)];
        intros H; apply mock_read_sized_consumes in H; simpl; lia.
  - intros H. injection H as _ <- <-. simpl. lia.
Qed.

(** Witness of C10: under a limit of 40 bytes the five well-formed chunks of
    [Mock.stake_delegated] (1 + 4 + 4 + 32 + 33 bytes) are refused. *)
Lemma UnpackStakeOpRet_datacarrier_cap_witness :
  (exists vData, UnpackStakeOpRet Mock.E40 Mock.stake_delegated = Ok (false, vData))
  /\ forall sp, GetStakeParams Mock.E40 Mock.stake_delegated sp = Ok (false, sp).
Proof.
  refine (proj2 (UnpackStakeOpRet_datacarrier_cap Mock.E40 (mock_GetOp_consumes _ _)
                   Mock.stake_delegated
                   {| nValue := 0;
                      scriptPubKey :=
                        Mock.opret (Mock.stake_data
                          [Mock.le_bytes 4 257; Mock.le_bytes 4 1285; Mock.H1; Mock.pk_delegate]) |}
                   (Mock.stake_data
                      [Mock.le_bytes 4 257; Mock.le_bytes 4 1285; Mock.H1; Mock.pk_delegate])
                   _ _ _)
                [[Byte.x01]; Mock.le_bytes 4 257; Mock.le_bytes 4 1285; Mock.H1; Mock.pk_delegate]
                _ _).
  - vm_compute. reflexivity.
  - vm_compute. reflexivity.
  - vm_compute. reflexivity.
  - vm_compute. reflexivity.
  - vm_compute. reflexivity.
Defined.

(** ** The constructor of [CStakeParams] *)

(** The key built from a vector is valid when the vector parses, and then
    holds its bytes. *)
Lemma CPubKey_of_vector_IsValid (E : Env) (vch : list byte) :
  0 < size vch -> CPubKey_IsValid (CPubKey_of_vector E vch) = pk_IsValid E vch.
Proof.
  intros Hsize. unfold CPubKey_of_vector, CPubKey_IsValid.
  destruct (pk_IsValid E vch); [apply Z.ltb_lt; exact Hsize|reflexivity].
Qed.

Lemma CPubKey_of_vector_parsed (E : Env) (vch : list byte) :
  pk_IsValid E vch = true -> CPubKey_of_vector E vch = vch.
Proof. intros H. unfold CPubKey_of_vector. rewrite H. reflexivity. Qed.

Lemma size_eqb_1 {A : Type} (d : list A) :
  (size d =? 1) = match d with [_] => true | _ => false end.
Proof.
  destruct d as [|a [|b d]]; try reflexivity.
  apply Z.eqb_neq. unfold size. simpl length. lia.
Qed.

(** On 4 or 5 chunks the constructor reads no chunk out of range, trips no
    assertion, and leaves the sentinel [srcHeight = 0] on every structural
    violation. *)
Lemma CStakeParams_ctor_sentinel (E : Env) (vData : list (list byte)) :
  4 <= size vData <= 5 ->
  exists p, CStakeParams_ctor E vData = Ok p
            /\ (structural_violation E vData = true -> srcHeight p = 0).
Proof.
  intros Hsize.
  destruct vData as [|d0 [|d1 [|d2 [|d3 rest]]]];
    try (exfalso; unfold size in Hsize; simpl in Hsize; lia).
  assert (Hrest : rest = [] \/ exists d4, rest = [d4]).
  { destruct rest as [|d4 [|d5 rest]]; eauto.
    exfalso. unfold size in Hsize. simpl in Hsize. lia. }
  unfold CStakeParams_ctor, structural_violation.
  destruct Hrest as [->|[d4 ->]]; vec_at_known; cbn [bind]; rewrite size_eqb_1; size_known.
  - destruct d0 as [|t [|t' d0]]; cbn [andM orM bind]; vec_at_known; cbn [andM orM bind];
      try rejected.
    destruct (b2z t =? OPRETTYPE_STAKEPARAMS E); cbn [andM orM bind negb orb]; [|rejected].
    rewrite !(Z.ltb_antisym _ 4). unfold uint256_of_vector.
    destruct (size d1 <=? 4); cbn [andM orM bind negb orb]; [|rejected].
    destruct (size d2 <=? 4); cbn [andM orM bind negb orb]; [|rejected].
    destruct (size d3 =? 32); cbn [andM orM bind negb orb]; [|rejected].
    eexists; split; [reflexivity|discriminate].
  - destruct d0 as [|t [|t' d0]]; cbn [andM orM bind]; vec_at_known; cbn [andM orM bind];
      try rejected.
    destruct (b2z t =? OPRETTYPE_STAKEPARAMS E); cbn [andM orM bind negb orb]; [|rejected].
    rewrite !(Z.ltb_antisym _ 4). unfold uint256_of_vector.
    destruct (size d1 <=? 4); cbn [andM orM bind negb orb]; [|rejected].
    destruct (size d2 <=? 4); cbn [andM orM bind negb orb]; [|rejected].
    destruct (size d3 =? 32); cbn [andM orM bind negb orb]; [|rejected].
    destruct (size d4 =? 33) eqn:Hd4; cbn [andM orM bind negb orb andb]; [|rejected].
    apply Z.eqb_eq in Hd4. rewrite CPubKey_of_vector_IsValid by lia.
    destruct (pk_IsValid E d4); cbn [negb];
      eexists; (split; [reflexivity|]); [discriminate|reflexivity].
Qed.

(** The heights the constructor decodes are not negative. *)
Lemma wrap32_nonneg (z : Z) : 0 <= wrap32 z.
Proof. unfold wrap32. apply Z.mod_pos_bound. lia. Qed.

Lemma le_accumulate_nonneg (v : list byte) :
  forall i h, 0 <= h -> 0 <= le_accumulate v i h.
Proof.
  induction v as [|b v IH]; intros i h Hh; simpl; [exact Hh|].
  apply IH. apply Z.lor_nonneg. split; [exact Hh|apply wrap32_nonneg].
Qed.

Lemma CStakeParams_ctor_blkHeight_nonneg (E : Env) (vData : list (list byte)) (p : CStakeParams) :
  CStakeParams_ctor E vData = Ok p -> 0 <= blkHeight p.
Proof.
  unfold CStakeParams_ctor. intros H.
  apply bind_Ok in H. destruct H as [cond [_ H]].
  destruct cond.
  - apply bind_Ok in H. destruct H as [d1 [_ H]].
    apply bind_Ok in H. destruct H as [d2 [_ H]].
    apply bind_Ok in H. destruct H as [d3 [_ H]].
    apply bind_Ok in H. destruct H as [h [_ H]].
    pose proof (le_accumulate_nonneg d2 0 0 ltac:(lia)) as Hblk.
    destruct (size vData =? 4).
    + injection H as <-. exact Hblk.
    + apply bind_Ok in H. destruct H as [d4 [_ H]].
      destruct (size d4 =? 33); injection H as <-; exact Hblk.
  - injection H as <-. simpl. lia.
Qed.

(** [UnpackStakeOpRet] hands on 4 or 5 chunks, never another number. *)
Lemma UnpackStakeOpRet_count (E : Env) (stakeTx : CTransaction) (vData : list (list byte)) :
  UnpackStakeOpRet E stakeTx = Ok (true, vData) -> 4 <= size vData <= 5.
Proof.
  unfold UnpackStakeOpRet. intros H.
  apply bind_Ok in H. destruct H as [o [_ H]].
  destruct (GetOpretData E (scriptPubKey o)) as [isValid vd].
  destruct (isValid && (size vd =? 1)); [|discriminate].
  apply bind_Ok in H. destruct H as [data [_ H]].
  apply bind_Ok in H. destruct H as [[iv vd'] [_ H]].
  destruct (iv && (STAKE_MINPARAMS <=? size vd') && (size vd' <=? STAKE_MAXPARAMS)) eqn:Hc;
    [|discriminate].
  injection H as <-.
  apply andb_true_iff in Hc. destruct Hc as [Hc Hmax].
  apply andb_true_iff in Hc. destruct Hc as [_ Hmin].
  apply Z.leb_le in Hmin, Hmax. unfold STAKE_MINPARAMS, STAKE_MAXPARAMS in *. lia.
Qed.

(** C6. The stake-metadata decode inside [GetStakeParams] is total: on every
    transaction it returns, without reading a chunk out of range and
    without a failed assertion (given that [GetOp] advances). A rejected
    decode leaves the out-parameter untouched or holding the sentinel
    [srcHeight = 0]; an accepted decode is valid; and whenever the chunk
    count is refused by [UnpackStakeOpRet] or the chunks show one of the
    structural violations, the decode is rejected. *)
Theorem GetStakeParams_total_sentinel (E : Env) (HE : GetOp_consumes E)
    (stakeTx : CTransaction) (sp : CStakeParams) :
  exists decoded p,
    GetStakeParams E stakeTx sp = Ok (decoded, p)
    /\ (decoded = false -> p = sp \/ (srcHeight p = 0 /\ IsValid p = false))
    /\ (decoded = true -> IsValid p = true)
    /\ (forall unpacked vData,
           UnpackStakeOpRet E stakeTx = Ok (unpacked, vData) ->
           unpacked = false \/ structural_violation E vData = true ->
           decoded = false).
Proof.
  destruct (GetStakeParams_cases E stakeTx sp) as [H|[_ [Hout H]]].
  - exists false, sp. rewrite H. repeat split; auto; discriminate.
  - destruct (UnpackStakeOpRet_returns E HE stakeTx ltac:(lia)) as [unpacked [vData Hrun]].
    rewrite H, Hrun. cbn [bind]. destruct unpacked.
    + destruct (CStakeParams_ctor_sentinel E vData (UnpackStakeOpRet_count _ _ _ Hrun))
        as [p [-> Hviol]].
      cbn [bind]. exists (IsValid p), p. split; [reflexivity|].
      split; [|split].
      * intros Hinv. right. split; [|exact Hinv].
        unfold IsValid in Hinv. apply negb_false_iff in Hinv. apply Z.eqb_eq in Hinv.
        exact Hinv.
      * auto.
      * intros unpacked' vData' Heq [Hno|Hbad]; injection Heq as <- <-; [discriminate|].
        unfold IsValid. rewrite (Hviol Hbad). reflexivity.
    + exists false, sp. repeat split; auto; discriminate.
Qed.

(** Witness of C6, on a stake transaction with three chunks only. *)
Lemma GetStakeParams_total_sentinel_witness :
  exists decoded p,
    GetStakeParams Mock.E0 Mock.stake_short CStakeParams_default = Ok (decoded, p)
    /\ (decoded = false ->
        p = CStakeParams_default \/ (srcHeight p = 0 /\ IsValid p = false))
    /\ (decoded = true -> IsValid p = true)
    /\ (forall unpacked vData,
           UnpackStakeOpRet Mock.E0 Mock.stake_short = Ok (unpacked, vData) ->
           unpacked = false \/ structural_violation Mock.E0 vData = true ->
           decoded = false).
Proof.
  exact (GetStakeParams_total_sentinel Mock.E0 (mock_GetOp_consumes _ _)
           Mock.stake_short CStakeParams_default).
Defined.

(** ** The validator *)

Lemma GetStakeParams_accept_indep (E : Env) (stakeTx : CTransaction) (sp sp' q : CStakeParams) :
  GetStakeParams E stakeTx sp = Ok (true, q) -> GetStakeParams E stakeTx sp' = Ok (true, q).
Proof.
  unfold GetStakeParams.
  match goal with |- bind ?shape _ = _ -> _ => destruct shape as [[|]|f] end;
    cbn [bind]; try discriminate.
  destruct (UnpackStakeOpRet E stakeTx) as [[[|] vData]|f]; cbn [bind]; try discriminate.
  auto.
Qed.

Lemma GetStakeParams_verdict (E : Env) (stakeTx : CTransaction) (sp q : CStakeParams)
    (decoded : bool) :
  GetStakeParams E stakeTx sp = Ok (decoded, q) ->
  (decoded = true -> IsValid q = true)
  /\ (decoded = false -> q = sp \/ IsValid q = false).
Proof.
  unfold GetStakeParams.
  match goal with |- bind ?shape _ = _ -> _ => destruct shape as [[|]|f] end;
    cbn [bind]; try discriminate.
  - destruct (UnpackStakeOpRet E stakeTx) as [[[|] vData]|f]; cbn [bind]; try discriminate.
    + destruct (CStakeParams_ctor E vData) as [p|f]; cbn [bind]; [|discriminate].
      intros H. injection H as <- <-. split; auto.
    + intros H. injection H as <- <-. split; [discriminate|auto].
  - intros H. injection H as <- <-. split; [discriminate|auto].
Qed.

Lemma GetStakeParams_blkHeight_nonneg (E : Env) (stakeTx : CTransaction) (sp q : CStakeParams) :
  GetStakeParams E stakeTx sp = Ok (true, q) -> 0 <= blkHeight q.
Proof.
  unfold GetStakeParams. intros H.
  apply bind_Ok in H. destruct H as [shape [_ H]].
  destruct shape; [|discriminate].
  apply bind_Ok in H. destruct H as [[unpacked vData] [_ H]].
  destruct unpacked; [|discriminate].
  apply bind_Ok in H. destruct H as [p [Hp H]].
  injection H as _ <-. eapply CStakeParams_ctor_blkHeight_nonneg. exact Hp.
Qed.

(** What an accepted stake transaction has passed. *)
Lemma ValidateStakeTransaction_accepts (E : Env) (stakeTx : CTransaction)
    (sp p : CStakeParams) (validateSig : bool) :
  ValidateStakeTransaction E stakeTx sp validateSig = Ok (true, p) ->
  exists q in0 srcTx blkHash pindex_height,
    GetStakeParams E stakeTx sp = Ok (true, q)
    /\ vec_at (vin stakeTx) 0 = Ok in0
    /\ myGetTransaction E (hash (prevout in0)) = Some (srcTx, blkHash)
    /\ mapBlockIndex E blkHash = Some pindex_height
    /\ srcHeight q = wrap32 pindex_height
    /\ wrap32 (VERUS_MIN_STAKEAGE E) <= wrap32 (blkHeight q - srcHeight q)
    /\ srcHeight p = srcHeight q /\ blkHeight p = blkHeight q /\ prevHash p = prevHash q.
Proof.
  unfold ValidateStakeTransaction. intros H.
  apply bind_Ok in H. destruct H as [[decoded q] [Hdec H]].
  destruct decoded; [|discriminate].
  apply bind_Ok in H. destruct H as [in0 [Hin H]].
  destruct (myGetTransaction E (hash (prevout in0))) as [[srcTx blkHash]|] eqn:Hsrc;
    [|discriminate].
  destruct (mapBlockIndex E blkHash) as [h|] eqn:Hblk; [|discriminate].
  exists q, in0, srcTx, blkHash, h.
  apply bind_Ok in H. destruct H as [[[solved txType] vAddr] [Hsolve H]].
  destruct solved; [|discriminate].
  destruct ((srcHeight q =? wrap32 h)
            && (wrap32 (blkHeight q - srcHeight q) >=? wrap32 (VERUS_MIN_STAKEAGE E)))
    eqn:Hage; [|discriminate].
  apply andb_true_iff in Hage. destruct Hage as [Hsrch Hage].
  apply Z.eqb_eq in Hsrch. rewrite Z.geb_leb in Hage. apply Z.leb_le in Hage.
  repeat (split; [assumption|]).
  apply bind_Ok in H. destruct H as [p' [Hp' H]].
  assert (Hsame : srcHeight p' = srcHeight q /\ blkHeight p' = blkHeight q
                  /\ prevHash p' = prevHash q).
  { destruct (is_TX_PUBKEY txType && negb (CPubKey_IsValid (pk q))).
    - apply bind_Ok in Hp'. destruct Hp' as [a0 [_ Hp']]. injection Hp' as <-. auto.
    - injection Hp' as <-. auto. }
  destruct (is_TX_PUBKEY txType || (is_TX_PUBKEYHASH txType && pk_IsFullyValid E (pk p')));
    [|discriminate].
  apply bind_Ok in H. destruct H as [verified [_ H]]. injection H as _ <-. exact Hsame.
Qed.

(** The age test of the validator passes for a target height below the
    source height, unless the two are almost 2^32 apart. *)
Lemma stake_age_wraps (src blk min_age : Z) :
  0 <= blk < src -> src < 2 ^ 32 -> 0 <= min_age -> src - blk <= 2 ^ 32 - min_age ->
  (wrap32 (blk - src) >=? wrap32 min_age) = true.
Proof.
  intros Hblk Hsrc Hmin Hgap. unfold wrap32.
  rewrite <- (Z.mod_add (blk - src) 1 (2 ^ 32)) by lia.
  rewrite (Z.mod_small (blk - src + 1 * 2 ^ 32)) by lia.
  rewrite Z.geb_leb. apply Z.leb_le.
  destruct (Z.eq_dec min_age (2 ^ 32)) as [->|Hne].
  - rewrite Z.mod_same by lia. lia.
  - rewrite Z.mod_small by lia. lia.
Qed.

(** C9. Validator monotonicity: when [ValidateStakeTransaction] succeeds
    with the signature check required, it succeeds on the same transaction
    with the check dropped, and with the same parameters, whatever the
    out-parameter held before either call. *)
Theorem ValidateStakeTransaction_signature_monotone (E : Env) (stakeTx : CTransaction)
    (sp sp' p : CStakeParams) :
  ValidateStakeTransaction E stakeTx sp true = Ok (true, p) ->
  ValidateStakeTransaction E stakeTx sp' false = Ok (true, p).
Proof.
  unfold ValidateStakeTransaction. intros H.
  apply bind_Ok in H. destruct H as [[decoded q] [Hdec H]].
  destruct decoded; [|discriminate].
  rewrite (GetStakeParams_accept_indep E stakeTx sp sp' q Hdec). cbn [bind].
  revert H. crunch.
  all: intros H; injection H as _ <-; reflexivity.
Qed.

(** Witness of C9, on the signed stake of the scenario. *)
Lemma ValidateStakeTransaction_signature_monotone_witness :
  ValidateStakeTransaction Mock.E0 Mock.stake_1285_H1 CStakeParams_default false
  = Ok (true, {| srcHeight := 257; blkHeight := 1285;
                 prevHash := Mock.H1; pk := Mock.pk_staker |}).
Proof.
  apply (ValidateStakeTransaction_signature_monotone Mock.E0 Mock.stake_1285_H1
           CStakeParams_default CStakeParams_default).
  vm_compute. reflexivity.
Defined.

(** C5, at the failing input. The stake [Mock.stake_16_H1] claims the
    target height 16 for a coin confirmed at height 257: the exact
    difference, -241, is below the minimum stake age 150, yet the
    transaction is accepted, because the difference of the two [uint32_t]
    wraps to 2^32 - 241. *)
Theorem ValidateStakeTransaction_accepts_target_below_source :
  ValidateStakeTransaction Mock.E0 Mock.stake_16_H1 CStakeParams_default true
  = Ok (true, {| srcHeight := 257; blkHeight := 16;
                 prevHash := Mock.H1; pk := Mock.pk_staker |})
  /\ 16 - 257 < VERUS_MIN_STAKEAGE Mock.E0
  /\ wrap32 (16 - 257) = 2 ^ 32 - 241.
Proof.
  repeat split; vm_compute; reflexivity.
Qed.

(** C8, as stated, fails: the validation of [Mock.stake_unknown_coin] fails
    at the lookup of the source transaction, and the out-parameter, which
    held [CStakeParams()] before the call, comes back holding the decoded
    parameters, which [IsValid] accepts. *)
Lemma ValidateStakeTransaction_failure_keeps_decode :
  ValidateStakeTransaction Mock.E0 Mock.stake_unknown_coin CStakeParams_default false
  = Ok (false, {| srcHeight := 257; blkHeight := 1285;
                  prevHash := Mock.H1; pk := CPubKey_default |})
  /\ IsValid {| srcHeight := 257; blkHeight := 1285;
                prevHash := Mock.H1; pk := CPubKey_default |} = true.
Proof.
  split; vm_compute; reflexivity.
Qed.

(** C8, amended. When [ValidateStakeTransaction] fails it returns false and
    does not roll its out-parameter back. If the failure is in the
    structural pre-check or the metadata decode, the out-parameter is what
    [GetStakeParams] left: the caller's value untouched, or a value
    [IsValid] refuses. If the failure comes later (lookup, source height,
    age, script form, signature), the out-parameter holds the heights and
    hash decoded by this call, and [IsValid] accepts it. *)
Theorem ValidateStakeTransaction_failure_out_parameter (E : Env) (stakeTx : CTransaction)
    (sp p : CStakeParams) (validateSig : bool) :
  ValidateStakeTransaction E stakeTx sp validateSig = Ok (false, p) ->
  exists decoded q,
    GetStakeParams E stakeTx sp = Ok (decoded, q)
    /\ (decoded = false -> p = q /\ (p = sp \/ IsValid p = false))
    /\ (decoded = true ->
        IsValid p = true
        /\ srcHeight p = srcHeight q /\ blkHeight p = blkHeight q /\ prevHash p = prevHash q).
Proof.
  unfold ValidateStakeTransaction. intros H.
  apply bind_Ok in H. destruct H as [[decoded q] [Hdec H]].
  exists decoded, q. split; [exact Hdec|].
  destruct (GetStakeParams_verdict E stakeTx sp q decoded Hdec) as [Hacc Hrej].
  destruct decoded.
  - split; [discriminate|]. intros _. specialize (Hacc eq_refl).
    revert H. crunch.
    all: intros H; inversion H; subst; unfold IsValid in *; simpl; auto.
  - split; [|discriminate]. intros _. injection H as <-. auto.
Qed.

(** Witness of C8 amended, on the failing lookup of the counterexample. *)
Lemma ValidateStakeTransaction_failure_out_parameter_witness :
  exists decoded q,
    GetStakeParams Mock.E0 Mock.stake_unknown_coin CStakeParams_default = Ok (decoded, q)
    /\ (decoded = false ->
        {| srcHeight := 257; blkHeight := 1285; prevHash := Mock.H1; pk := CPubKey_default |} = q
        /\ ({| srcHeight := 257; blkHeight := 1285; prevHash := Mock.H1; pk := CPubKey_default |}
            = CStakeParams_default
            \/ IsValid {| srcHeight := 257; blkHeight := 1285;
                          prevHash := Mock.H1; pk := CPubKey_default |} = false))
    /\ (decoded = true ->
        IsValid {| srcHeight := 257; blkHeight := 1285;
                   prevHash := Mock.H1; pk := CPubKey_default |} = true
        /\ 257 = srcHeight q /\ 1285 = blkHeight q /\ Mock.H1 = prevHash q).
Proof.
  apply (ValidateStakeTransaction_failure_out_parameter Mock.E0 Mock.stake_unknown_coin
           CStakeParams_default
           {| srcHeight := 257; blkHeight := 1285; prevHash := Mock.H1; pk := CPubKey_default |}
           false).
  vm_compute. reflexivity.
Defined.

(** ** The height chunk of the guarded output *)

(** The loop of the detector shifts the accumulator, which starts at 0, and
    never adds a byte into it: it returns 0 on every chunk. *)
Lemma reconstruct_height_zero (chunk : list byte) : reconstruct_height chunk = 0.
Proof.
  unfold reconstruct_height.
  induction chunk as [|b chunk IH]; [reflexivity|].
  simpl. unfold shl32 at 2. rewrite Z.shiftl_0_l. exact IH.
Qed.

(** C3, on the code. The round trip is not the identity: whatever height
    [MakeGuardedOutput] records, the loop of [ValidateMatchingStake]
    reconstructs 0 from the recorded chunk; for the height 1285, recorded as
    the bytes 05 05 00 00, it yields 0. *)
Theorem reconstruct_height_of_height_bytes :
  (forall h : Z, reconstruct_height (height_bytes h) = 0)
  /\ height_bytes 1285 = [Byte.x05; Byte.x05; Byte.x00; Byte.x00]
  /\ reconstruct_height [Byte.x05; Byte.x05; Byte.x00; Byte.x00] = 0.
Proof.
  split; [|split].
  - intros h. apply reconstruct_height_zero.
  - vm_compute. reflexivity.
  - vm_compute. reflexivity.
Qed.

(** ** The detector and the evidence builder *)

(** Whenever the detector reports a match, its cheating verdict is decided
    by the previous-block hashes alone, and a match without cheating is
    reported for the target height 0 only: the height recorded in the
    guarded output plays no part. *)
Lemma ValidateMatchingStake_verdict (E : Env) (ccTx : CTransaction) (voutNum : Z)
    (stakeTx : CTransaction) (cheating : bool) :
  ValidateMatchingStake E ccTx voutNum stakeTx = Ok (true, cheating) ->
  exists p cc_out vp0 d1,
    ValidateStakeTransaction E stakeTx CStakeParams_default (validateSig_default E)
    = Ok (true, p)
    /\ vec_at (vout ccTx) voutNum = Ok cc_out
    /\ vec_at (snd (IsPayToCryptoCondition E (scriptPubKey cc_out))) 0 = Ok vp0
    /\ vec_at (ccp_vData (COptCCParams_parse E vp0)) 1 = Ok d1
    /\ cheating = negb (bytes_eqb (prevHash p) d1)
    /\ (cheating = false -> blkHeight p = 0).
Proof.
  unfold ValidateMatchingStake. intros H.
  destruct (IsCoinBase E ccTx); [|discriminate].
  apply bind_Ok in H. destruct H as [[valid p] [Hvalid H]].
  destruct valid; [|discriminate].
  apply bind_Ok in H. destruct H as [cc_out [Hout H]].
  destruct (IsPayToCryptoCondition E (scriptPubKey cc_out)) as [isCC vParams] eqn:Hcc.
  destruct (isCC && (0 <? size vParams)); [|discriminate].
  apply bind_Ok in H. destruct H as [vp0 [Hvp0 H]].
  apply bind_Ok in H. destruct H as [shaped [_ H]].
  destruct shaped; [|discriminate].
  apply bind_Ok in H. destruct H as [in0 [_ H]].
  apply bind_Ok in H. destruct H as [d2 [_ H]].
  apply bind_Ok in H. destruct H as [d0 [_ H]].
  apply bind_Ok in H. destruct H as [recorded_utxo [_ H]].
  destruct (bytes_eqb _ recorded_utxo); [|discriminate].
  apply bind_Ok in H. destruct H as [d1 [Hd1 H]].
  apply bind_Ok in H. destruct H as [recorded_prevHash [Hrec H]].
  assert (recorded_prevHash = d1) as ->.
  { unfold uint256_of_vector in Hrec. destruct (size d1 =? 32); [|discriminate].
    injection Hrec as <-. reflexivity. }
  rewrite reconstruct_height_zero in H.
  exists p, cc_out, vp0, d1.
  destruct (ValidateStakeTransaction_accepts _ _ _ _ _ Hvalid)
    as [q [in0' [srcTx [blkHash [h [Hq [_ [_ [_ [_ [_ [_ [Hblk _]]]]]]]]]]]]].
  apply GetStakeParams_blkHeight_nonneg in Hq. rewrite <- Hblk in Hq.
  replace (blkHeight p >=? 0) with true in H
    by (symmetry; rewrite Z.geb_leb; apply Z.leb_le; exact Hq).
  rewrite andb_true_r in H. rewrite Hcc. cbn [snd].
  repeat (split; [assumption|]).
  destruct (negb (bytes_eqb (prevHash p) d1)).
  - injection H as <-. split; [reflexivity|discriminate].
  - destruct (blkHeight p =? 0) eqn:Hz; [|discriminate].
    injection H as <-. split; [reflexivity|]. intros _. apply Z.eqb_eq. exact Hz.
Qed.

(** C2, at the failing input. The guarded output of the scenario records
    the target height 1285 and the previous block [H1]; the candidate
    [Mock.stake_1028_H2] stakes the same coin on [H2] toward the height
    1028, strictly below the recorded one; the detector reports cheating. *)
Theorem ValidateMatchingStake_cheating_below_recorded_height :
  MakeGuardedOutput Mock.E0 100 Mock.pk_dest Mock.stake_1285_H1 = Ok (true, Mock.guarded_output)
  /\ ccp_vData
       (COptCCParams_parse Mock.E0
          (hd [] (snd (IsPayToCryptoCondition Mock.E0 (scriptPubKey Mock.guarded_output)))))
     = [VerusHash Mock.E0 Mock.txid_coin 0; Mock.H1; height_bytes 1285]
  /\ GetStakeParams Mock.E0 Mock.stake_1028_H2 CStakeParams_default
     = Ok (true, {| srcHeight := 257; blkHeight := 1028;
                    prevHash := Mock.H2; pk := CPubKey_default |})
  /\ ValidateMatchingStake Mock.E0 Mock.reward_tx 0 Mock.stake_1028_H2 = Ok (true, true).
Proof.
  repeat split; vm_compute; reflexivity.
Qed.

(** C4, at the failing input. The rewarded claim [Mock.stake_1285_H1] is
    submitted again against the guarded output built from it, which records
    its previous block [H1] and its target height 1285: the detector reports
    no cheating, but it does not report a match either. *)
Theorem ValidateMatchingStake_identical_claim :
  MakeGuardedOutput Mock.E0 100 Mock.pk_dest Mock.stake_1285_H1 = Ok (true, Mock.guarded_output)
  /\ ccp_vData
       (COptCCParams_parse Mock.E0
          (hd [] (snd (IsPayToCryptoCondition Mock.E0 (scriptPubKey Mock.guarded_output)))))
     = [VerusHash Mock.E0 Mock.txid_coin 0; Mock.H1; height_bytes 1285]
  /\ GetStakeParams Mock.E0 Mock.stake_1285_H1 CStakeParams_default
     = Ok (true, {| srcHeight := 257; blkHeight := 1285;
                    prevHash := Mock.H1; pk := CPubKey_default |})
  /\ ValidateMatchingStake Mock.E0 Mock.reward_tx 0 Mock.stake_1285_H1 = Ok (false, false).
Proof.
  repeat split; vm_compute; reflexivity.
Qed.

(** C7, on the code. [MakeCheatEvidence] has no [return] statement, so no
    call has a result: a fault of the detector apart, control reaches the
    end of the function whatever the verdict is. At the failing input, the
    rewarded claim submitted again, the verdict is (false, false); on the
    later stake of the other fork it is (true, true). *)
Theorem MakeCheatEvidence_no_result :
  (forall (E : Env) (mtx ccTx : CTransaction) (voutNum : Z) (cheatTx : CTransaction),
      MakeCheatEvidence E mtx ccTx voutNum cheatTx
      = match ValidateMatchingStake E ccTx voutNum cheatTx with
        | Ok _ => Fault MissingReturn
        | Fault f => Fault f
        end)
  /\ ValidateMatchingStake Mock.E0 Mock.reward_tx 0 Mock.stake_1285_H1 = Ok (false, false)
  /\ MakeCheatEvidence Mock.E0 (Mock.slash_tx []) Mock.reward_tx 0 Mock.stake_1285_H1
     = Fault MissingReturn
  /\ ValidateMatchingStake Mock.E0 Mock.reward_tx 0 Mock.stake_1542_H2 = Ok (true, true)
  /\ MakeCheatEvidence Mock.E0 (Mock.slash_tx []) Mock.reward_tx 0 Mock.stake_1542_H2
     = Fault MissingReturn.
Proof.
  split; [|repeat split; vm_compute; reflexivity].
  intros E mtx ccTx voutNum cheatTx. unfold MakeCheatEvidence.
  destruct (ValidateMatchingStake E ccTx voutNum cheatTx) as [[matches isCheater]|f];
    cbn [bind]; [|reflexivity].
  destruct (matches && isCheater); reflexivity.
Qed.

(** ** The authorizer *)

Lemma vec_at_fault {A : Type} (v : list A) (i : Z) (f : fault) :
  vec_at v i = Fault f -> f = OutOfRange.
Proof.
  unfold vec_at. destruct ((0 <=? i) && (i <? size v)).
  - destruct (nth_error v (Z.to_nat i)); [discriminate|]. intros H. injection H as <-. reflexivity.
  - intros H. injection H as <-. reflexivity.
Qed.

(** C1, on the code. [CoinbaseGuardValidate] never rejects: on every
    environment, transaction and input index it authorizes, unless it
    indexes a vector out of range. In particular it authorizes
    [Mock.slash_tx []], a spend of the guarded output fulfilled with the
    guard authority's key that carries no evidence at all. *)
Theorem CoinbaseGuardValidate_never_rejects :
  (forall (E : Env) (tx : CTransaction) (nIn : Z),
      CoinbaseGuardValidate E tx nIn = Ok true
      \/ CoinbaseGuardValidate E tx nIn = Fault OutOfRange)
  /\ GetCCParams Mock.E0 (Mock.slash_tx []) 0
     = Some (Mock.reward_tx,
             snd (IsPayToCryptoCondition Mock.E0 (scriptPubKey Mock.guarded_output)),
             [])
  /\ CoinbaseGuardValidate Mock.E0 (Mock.slash_tx []) 0 = Ok true.
Proof.
  split; [|split; vm_compute; reflexivity].
  intros E tx nIn. unfold CoinbaseGuardValidate.
  destruct (vec_at (vin tx) nIn) as [txin|f] eqn:Hin; cbn [bind];
    [|right; apply vec_at_fault in Hin; subst f; reflexivity].
  destruct (GetCryptoCondition E (scriptSig txin)) as [cc|]; cbn [bind orb]; [|now left].
  destruct (GetCCParams E tx nIn) as [[[txOut preConditions] params]|]; cbn [bind orb];
    [|now left].
  destruct ((0 <? size preConditions) && (0 <? size params)).
  - destruct (vec_at preConditions 1) as [pre1|f] eqn:Hpre; cbn [bind andM negb orb];
      [now left|].
    right. apply vec_at_fault in Hpre. subst f. reflexivity.
  - cbn [bind andM negb orb]. now left.
Qed.

(** * Further properties of the code *)

Lemma b2z_range (b : byte) : 0 <= b2z b < 256.
Proof.
  unfold b2z. pose proof (Strings.Byte.to_N_bounded b) as H. lia.
Qed.

Lemma byte_of_Z_b2z (b : byte) : byte_of_Z (b2z b) = b.
Proof.
  unfold byte_of_Z. rewrite Z.mod_small by apply b2z_range.
  unfold b2z. rewrite N2Z.id. rewrite Strings.Byte.of_to_N. reflexivity.
Qed.

Lemma b2z_byte_of_Z (z : Z) : b2z (byte_of_Z z) = z mod 256.
Proof.
  unfold byte_of_Z, b2z.
  pose proof (Z.mod_pos_bound z 256 ltac:(lia)) as Hr.
  destruct (Strings.Byte.of_N (Z.to_N (z mod 256))) as [b|] eqn:Hb.
  - apply Strings.Byte.to_of_N in Hb. rewrite Hb. lia.
  - apply Strings.Byte.of_N_None_iff in Hb. lia.
Qed.

Lemma little_endian_range (v : list byte) : 0 <= little_endian v < 2 ^ (8 * size v).
Proof.
  induction v as [|b v IH].
  - simpl. unfold size. simpl. lia.
  - cbn [little_endian]. pose proof (b2z_range b) as Hb.
    replace (8 * size (b :: v)) with (8 + 8 * size v) by (unfold size; simpl length; lia).
    pose proof (size_nonneg v).
    rewrite Z.pow_add_r by lia. change (2 ^ 8) with 256.
    set (P := 2 ^ (8 * size v)) in *. clearbody P. lia.
Qed.

Lemma lor_shiftl_disjoint (h b k : Z) :
  0 <= k -> 0 <= h < 2 ^ k -> Z.lor h (Z.shiftl b k) = h + Z.shiftl b k.
Proof.
  intros Hk Hh.
  assert (Hland : Z.land h (Z.shiftl b k) = 0).
  { apply Z.bits_inj'. intros i Hi. rewrite Z.land_spec, Z.bits_0.
    destruct (Z.lt_ge_cases i k) as [Hlt|Hge].
    - rewrite Z.shiftl_spec_low by lia. apply andb_false_r.
    - rewrite <- (Z.mod_small h (2 ^ k)) by lia.
      rewrite Z.mod_pow2_bits_high by lia. reflexivity. }
  rewrite <- Z.lxor_lor by exact Hland. symmetry. apply Z.add_nocarry_lxor. exact Hland.
Qed.

Lemma le_accumulate_spec (v : list byte) :
  forall i h,
    0 <= i -> 0 <= h < 2 ^ (8 * i) -> i + size v <= 4 ->
    le_accumulate v i h = h + 2 ^ (8 * i) * little_endian v.
Proof.
  induction v as [|b v IH]; intros i h Hi Hh Hlen.
  - simpl. lia.
  - cbn [le_accumulate]. cbn [little_endian].
    pose proof (b2z_range b) as Hb. pose proof (size_nonneg v) as Hv.
    assert (Hsz : size (b :: v) = 1 + size v) by (unfold size; simpl length; lia).
    rewrite Hsz in Hlen.
    assert (Hpow : 0 < 2 ^ (8 * i)) by (apply Z.pow_pos_nonneg; lia).
    assert (Hshift : Z.shiftl (b2z b) (8 * i) = b2z b * 2 ^ (8 * i))
      by (apply Z.shiftl_mul_pow2; lia).
    assert (Hnext : 2 ^ (8 * (i + 1)) = 256 * 2 ^ (8 * i)).
    { replace (8 * (i + 1)) with (8 + 8 * i) by lia. rewrite Z.pow_add_r by lia. reflexivity. }
    assert (Htop : 2 ^ (8 * (i + 1)) <= 2 ^ 32) by (apply Z.pow_le_mono_r; lia).
    rewrite wrap32_small by (rewrite Hshift; nia).
    rewrite lor_shiftl_disjoint by lia.
    rewrite IH; [rewrite Hshift, Hnext; ring| lia | rewrite Hshift, Hnext; nia | lia].
Qed.

Lemma byte_extract (h i : Z) :
  0 <= i -> Z.land (Z.shiftr h (8 * i)) 0xff = (h / 2 ^ (8 * i)) mod 256.
Proof.
  intros Hi. change 0xff with (Z.ones 8). rewrite Z.land_ones by lia.
  rewrite Z.shiftr_div_pow2 by lia. reflexivity.
Qed.

Lemma height_bytes_unfold (h : Z) :
  height_bytes h =
  [byte_of_Z (h mod 256); byte_of_Z ((h / 2 ^ 8) mod 256);
   byte_of_Z ((h / 2 ^ 16) mod 256); byte_of_Z ((h / 2 ^ 24) mod 256)].
Proof.
  unfold height_bytes. cbn [map].
  rewrite !byte_extract by lia.
  change (8 * 0) with 0. change (8 * 1) with 8. change (8 * 2) with 16. change (8 * 3) with 24.
  change (2 ^ 0) with 1. rewrite Z.div_1_r. reflexivity.
Qed.

(** X2. The height chunk [MakeGuardedOutput] records is four bytes long and
    its little-endian value is the height modulo 2^32. *)
Theorem height_bytes_little_endian (h : Z) :
  size (height_bytes h) = 4 /\ little_endian (height_bytes h) = h mod 2 ^ 32.
Proof.
  split; [reflexivity|].
  rewrite height_bytes_unfold. cbn [little_endian].
  rewrite !b2z_byte_of_Z. rewrite !Z.mod_mod by lia.
  change (2 ^ 8) with 256. change (2 ^ 16) with 65536. change (2 ^ 24) with 16777216.
  change (2 ^ 32) with 4294967296.
  Z.div_mod_to_equations. lia.
Qed.

Lemma byte_of_Z_eq (z : Z) (b : byte) : z = b2z b -> byte_of_Z z = b.
Proof. intros ->. apply byte_of_Z_b2z. Qed.

Lemma height_bytes_of_bytes (c0 c1 c2 c3 : byte) :
  height_bytes (b2z c0 + 256 * (b2z c1 + 256 * (b2z c2 + 256 * (b2z c3 + 256 * 0))))
  = [c0; c1; c2; c3].
Proof.
  rewrite height_bytes_unfold.
  change (2 ^ 8) with 256. change (2 ^ 16) with 65536. change (2 ^ 24) with 16777216.
  pose proof (b2z_range c0). pose proof (b2z_range c1).
  pose proof (b2z_range c2). pose proof (b2z_range c3).
  f_equal; [|f_equal; [|f_equal; [|f_equal]]];
    apply byte_of_Z_eq; Z.div_mod_to_equations; lia.
Qed.

Lemma height_bytes_of_chunk (d : list byte) :
  size d <= 4 ->
  height_bytes (little_endian d) = d ++ repeat Byte.x00 (4 - length d).
Proof.
  intros Hd.
  destruct d as [|b0 [|b1 [|b2 [|b3 [|b4 d]]]]];
    try (exfalso; unfold size in Hd; simpl length in Hd; lia).
  - exact (height_bytes_of_bytes Byte.x00 Byte.x00 Byte.x00 Byte.x00).
  - exact (height_bytes_of_bytes b0 Byte.x00 Byte.x00 Byte.x00).
  - exact (height_bytes_of_bytes b0 b1 Byte.x00 Byte.x00).
  - exact (height_bytes_of_bytes b0 b1 b2 Byte.x00).
  - exact (height_bytes_of_bytes b0 b1 b2 b3).
Qed.

Lemma le_accumulate_little_endian (d : list byte) :
  size d <= 4 -> le_accumulate d 0 0 = little_endian d /\ 0 <= little_endian d < 2 ^ 32.
Proof.
  intros Hd. pose proof (size_nonneg d) as Hn. split.
  - rewrite le_accumulate_spec by (simpl; lia). change (2 ^ (8 * 0)) with 1. lia.
  - pose proof (little_endian_range d) as Hr.
    assert (2 ^ (8 * size d) <= 2 ^ 32) by (apply Z.pow_le_mono_r; lia). lia.
Qed.

Lemma structural_violation_false (E : Env) (vData : list (list byte)) :
  structural_violation E vData = false ->
  exists t d1 d2 d3 rest,
    vData = [t] :: d1 :: d2 :: d3 :: rest
    /\ b2z t = OPRETTYPE_STAKEPARAMS E
    /\ size d1 <= 4 /\ size d2 <= 4 /\ size d3 = 32
    /\ (rest = [] \/ exists d4, rest = [d4] /\ size d4 = 33 /\ pk_IsValid E d4 = true).
Proof.
  unfold structural_violation. intros H.
  destruct vData as [|d0 [|d1 [|d2 [|d3 rest]]]]; try discriminate.
  apply orb_false_iff in H. destruct H as [H Hrest].
  apply orb_false_iff in H. destruct H as [H H3].
  apply orb_false_iff in H. destruct H as [H H2].
  apply orb_false_iff in H. destruct H as [H0 H1].
  apply negb_false_iff in H0, H3.
  destruct d0 as [|t [|t' d0]]; try discriminate.
  apply Z.eqb_eq in H0, H3. apply Z.ltb_ge in H1, H2.
  exists t, d1, d2, d3, rest. repeat (split; [assumption || reflexivity|]).
  destruct rest as [|d4 [|d5 rest]]; [now left| |discriminate].
  right. exists d4. apply negb_false_iff in Hrest. apply andb_true_iff in Hrest.
  destruct Hrest as [H33 Hpk]. apply Z.eqb_eq in H33. auto.
Qed.

Lemma CStakeParams_ctor_well_formed (E : Env) (vData : list (list byte)) :
  structural_violation E vData = false ->
  CStakeParams_ctor E vData =
    Ok (decoded_params vData)
  /\ 0 <= little_endian (nth 1 vData []) < 2 ^ 32
  /\ 0 <= little_endian (nth 2 vData []) < 2 ^ 32
  /\ size (nth 3 vData []) = 32.
Proof.
  intros H. apply structural_violation_false in H.
  destruct H as [t [d1 [d2 [d3 [rest [-> [Htag [H1 [H2 [H3 Hrest]]]]]]]]]].
  unfold decoded_params. cbn [nth].
  destruct (le_accumulate_little_endian d1 H1) as [Hsrc Hsrc_range].
  destruct (le_accumulate_little_endian d2 H2) as [Hblk Hblk_range].
  split; [|auto].
  unfold CStakeParams_ctor, uint256_of_vector.
  apply Z.leb_le in H1, H2. apply Z.eqb_eq in Htag, H3.
  destruct Hrest as [->|[d4 [-> [H33 Hpk]]]]; vec_at_known; cbn [bind nth];
    rewrite size_eqb_1; size_known; cbn [andM orM bind]; vec_at_known; cbn [andM orM bind];
    rewrite Htag, H1, H2, H3; cbn [andM orM bind]; rewrite ?H3; cbn [bind].
  - rewrite Hsrc, Hblk. reflexivity.
  - rewrite CPubKey_of_vector_IsValid by lia. rewrite (CPubKey_of_vector_parsed E d4 Hpk).
    apply Z.eqb_eq in H33. rewrite H33, Hpk, Hsrc, Hblk.
    reflexivity.
Qed.

(** X1. On a chunk list without structural violation the constructor of
    [CStakeParams] returns the little-endian values of the two height
    chunks, a chunk shorter than four bytes being extended with zeros and
    both values below 2^32, the hash chunk, and the key chunk or the empty
    key; the result is valid exactly when the source height is not 0. *)
Theorem CStakeParams_ctor_decodes (E : Env) (vData : list (list byte)) :
  structural_violation E vData = false ->
  CStakeParams_ctor E vData =
    Ok {| srcHeight := little_endian (nth 1 vData []);
          blkHeight := little_endian (nth 2 vData []);
          prevHash := nth 3 vData [];
          pk := nth 4 vData [] |}
  /\ 0 <= little_endian (nth 1 vData []) < 2 ^ 32
  /\ 0 <= little_endian (nth 2 vData []) < 2 ^ 32
  /\ (IsValid (decoded_params vData) = true <-> little_endian (nth 1 vData []) <> 0).
Proof.
  intros H. destruct (CStakeParams_ctor_well_formed E vData H) as [Hdec [Hsrc [Hblk _]]].
  split; [exact Hdec|]. split; [exact Hsrc|]. split; [exact Hblk|].
  unfold IsValid, decoded_params. cbn [srcHeight]. rewrite negb_true_iff.
  apply Z.eqb_neq.
Qed.

(** Witness of X1, on the chunks of the rewarded claim. *)
Lemma CStakeParams_ctor_decodes_witness :
  CStakeParams_ctor Mock.E0 Edge.chunks_1285 =
    Ok {| srcHeight := 257; blkHeight := 1285; prevHash := Mock.H1; pk := [] |}.
Proof.
  refine (proj1 (CStakeParams_ctor_decodes Mock.E0 Edge.chunks_1285 _)).
  vm_compute. reflexivity.
Defined.

Lemma unpack_loop_complete (E : Env) (fuel : nat) :
  forall (pc : CScript) (bytesTotal : Z) (isValid : bool) (vData cs : list (list byte)),
    0 <= bytesTotal ->
    nMaxDatacarrierBytes E < 2 ^ 32 ->
    chunks_of E fuel pc = Some cs ->
    bytesTotal + total_bytes cs <= nMaxDatacarrierBytes E ->
    unpack_loop E fuel pc bytesTotal isValid vData = Ok (true, vData ++ cs).
Proof.
  induction fuel as [|fuel IH]; intros pc bt iv vd cs Hbt Hcap Hcs Hsum; [discriminate|].
  cbn [chunks_of] in Hcs. cbn [unpack_loop].
  pose proof (total_bytes_nonneg cs) as Hnn.
  replace (bt <=? nMaxDatacarrierBytes E) with true by (symmetry; apply Z.leb_le; lia).
  destruct pc as [|b pc].
  - injection Hcs as <-. rewrite app_nil_r. reflexivity.
  - destruct (GetOp E (b :: pc)) as [[[op vch] pc']|]; [|discriminate].
    destruct (IsData op); [|discriminate].
    set (c := if (OP_1 <=? op) && (op <=? OP_16)
              then [byte_of_Z ((op - OP_1) + 1)] else vch) in *.
    destruct (chunks_of E fuel pc') as [cs'|] eqn:Hcs'; [|discriminate].
    injection Hcs as <-. cbn [total_bytes fold_right] in Hsum, Hnn.
    fold (total_bytes cs') in Hsum, Hnn.
    pose proof (size_nonneg c) as Hc. pose proof (total_bytes_nonneg cs') as Hnn'.
    rewrite wrap32_small by lia.
    rewrite (IH pc' (bt + size c) false (vd ++ [c]) cs') by (assumption || lia).
    rewrite <- app_assoc. reflexivity.
Qed.

(** X5. [UnpackStakeOpRet] accepts every blob that the OP_RETURN output
    carries as its single push and that reads as 4 or 5 data chunks of at
    most [nMaxDatacarrierBytes] bytes in total, and it hands on exactly
    those chunks. *)
Theorem UnpackStakeOpRet_complete (E : Env) (stakeTx : CTransaction) (o : CTxOut)
    (data : CScript) (cs : list (list byte)) :
  vec_at (vout stakeTx) (size (vout stakeTx) - 1) = Ok o ->
  GetOpretData E (scriptPubKey o) = (true, [data]) ->
  nMaxDatacarrierBytes E < 2 ^ 32 ->
  blob_chunks E data = Some cs ->
  4 <= size cs <= 5 ->
  total_bytes cs <= nMaxDatacarrierBytes E ->
  UnpackStakeOpRet E stakeTx = Ok (true, cs).
Proof.
  intros Ho Hdata Hcap Hcs Hcount Hsum.
  unfold UnpackStakeOpRet. rewrite Ho. cbn [bind]. rewrite Hdata.
  replace (size [data] =? 1) with true by reflexivity.
  rewrite vec_at_head. cbn [bind andb].
  rewrite (unpack_loop_complete E (S (length data)) data 0 true [] cs)
    by (assumption || lia).
  cbn [bind app andb].
  replace (STAKE_MINPARAMS <=? size cs) with true
    by (symmetry; apply Z.leb_le; unfold STAKE_MINPARAMS; lia).
  replace (size cs <=? STAKE_MAXPARAMS) with true
    by (symmetry; apply Z.leb_le; unfold STAKE_MAXPARAMS; lia).
  reflexivity.
Qed.

(** Witness of X5, on the rewarded claim. *)
Lemma UnpackStakeOpRet_complete_witness :
  UnpackStakeOpRet Mock.E0 Mock.stake_1285_H1 = Ok (true, Edge.chunks_1285).
Proof.
  refine (UnpackStakeOpRet_complete Mock.E0 Mock.stake_1285_H1
            {| nValue := 0;
               scriptPubKey :=
                 Mock.opret (Mock.stake_data
                   [Mock.le_bytes 4 257; Mock.le_bytes 4 1285; Mock.H1]) |}
            (Mock.stake_data [Mock.le_bytes 4 257; Mock.le_bytes 4 1285; Mock.H1])
            Edge.chunks_1285 _ _ _ _ _ _).
  - vm_compute. reflexivity.
  - vm_compute. reflexivity.
  - change (8192 < 2 ^ 32). lia.
  - vm_compute. reflexivity.
  - change (4 <= 4 <= 5). lia.
  - change (41 <= 8192). lia.
Defined.

Lemma size_1_inv {A : Type} (l : list A) : size l = 1 -> exists a, l = [a].
Proof.
  destruct l as [|a [|b l]]; unfold size; simpl length; intros H; try lia. eauto.
Qed.

Lemma size_2_inv {A : Type} (l : list A) : size l = 2 -> exists a b, l = [a; b].
Proof.
  destruct l as [|a [|b [|c l]]]; unfold size; simpl length; intros H; try lia. eauto.
Qed.


Lemma GetStakeParams_accepted_chunks (E : Env) (stakeTx : CTransaction) (sp p : CStakeParams) :
  GetStakeParams E stakeTx sp = Ok (true, p) ->
  exists vData,
    UnpackStakeOpRet E stakeTx = Ok (true, vData)
    /\ structural_violation E vData = false
    /\ little_endian (nth 1 vData []) <> 0
    /\ p = decoded_params vData.
Proof.
  intros H. unfold GetStakeParams in H.
  apply bind_Ok in H. destruct H as [shape [_ H]].
  destruct shape; [|discriminate].
  apply bind_Ok in H. destruct H as [[unpacked vData] [Hrun H]].
  destruct unpacked; [|discriminate].
  apply bind_Ok in H. destruct H as [p' [Hp' H]]. injection H as Hvalid <-.
  exists vData. split; [exact Hrun|].
  destruct (structural_violation E vData) eqn:Hviol.
  - destruct (CStakeParams_ctor_sentinel E vData (UnpackStakeOpRet_count _ _ _ Hrun))
      as [p'' [Hp'' Hzero]].
    rewrite Hp' in Hp''. injection Hp'' as <-.
    unfold IsValid in Hvalid. rewrite (Hzero Hviol) in Hvalid. discriminate.
  - destruct (CStakeParams_ctor_well_formed E vData Hviol) as [Hdec _].
    rewrite Hp' in Hdec. injection Hdec as ->.
    split; [reflexivity|]. split; [|reflexivity].
    unfold IsValid, decoded_params in Hvalid. cbn [srcHeight] in Hvalid.
    apply negb_true_iff in Hvalid. apply Z.eqb_neq in Hvalid. exact Hvalid.
Qed.

(** X6. [GetStakeParams] accepts exactly the transactions with one input and
    two outputs, a positive value in output 0 and an OP_RETURN output 1,
    whose chunks [UnpackStakeOpRet] hands on, show no structural violation
    and give a source height other than 0; the parameters it returns are
    the decoded chunks. *)
Theorem GetStakeParams_accepts_iff (E : Env) (stakeTx : CTransaction) (sp p : CStakeParams) :
  GetStakeParams E stakeTx sp = Ok (true, p) <->
  exists i0 o0 o1 vData,
    vin stakeTx = [i0] /\ vout stakeTx = [o0; o1]
    /\ 0 < nValue o0 /\ IsOpReturn E (scriptPubKey o1) = true
    /\ UnpackStakeOpRet E stakeTx = Ok (true, vData)
    /\ structural_violation E vData = false
    /\ little_endian (nth 1 vData []) <> 0
    /\ p = decoded_params vData.
Proof.
  split.
  - intros H.
    destruct (GetStakeParams_accepted_chunks E stakeTx sp p H)
      as [vData [Hrun [Hviol [Hsrc Hp]]]].
    unfold GetStakeParams in H.
    destruct (size (vin stakeTx) =? 1) eqn:Hin; cbn [andM bind] in H; [|discriminate].
    destruct (size (vout stakeTx) =? 2) eqn:Hout; cbn [andM bind] in H; [|discriminate].
    apply Z.eqb_eq in Hin, Hout.
    destruct (size_1_inv _ Hin) as [i0 Hi0]. destruct (size_2_inv _ Hout) as [o0 [o1 Ho]].
    rewrite Ho in H. revert H. vec_at_known. cbn [andM bind]. intros H.
    destruct (0 <? nValue o0) eqn:Hval; cbn [andM bind] in H; [|discriminate].
    destruct (IsOpReturn E (scriptPubKey o1)) eqn:Hopret; cbn [andM bind] in H; [|discriminate].
    exists i0, o0, o1, vData. apply Z.ltb_lt in Hval. auto 10.
  - intros [i0 [o0 [o1 [vData [Hin [Hout [Hval [Hopret [Hrun [Hviol [Hsrc ->]]]]]]]]]]].
    unfold GetStakeParams. rewrite Hin. rewrite Hout at 1 2 3.
    replace (size [i0] =? 1) with true by reflexivity.
    replace (size [o0; o1] =? 2) with true by reflexivity.
    vec_at_known. cbn [andM bind].
    apply Z.ltb_lt in Hval. rewrite Hval, Hopret. cbn [andM bind].
    rewrite Hrun. cbn [bind].
    destruct (CStakeParams_ctor_well_formed E vData Hviol) as [-> _]. cbn [bind].
    unfold IsValid, decoded_params. cbn [srcHeight].
    apply Z.eqb_neq in Hsrc. rewrite Hsrc. reflexivity.
Qed.

(** Witness of X6, on the rewarded claim. *)
Lemma GetStakeParams_accepts_iff_witness :
  GetStakeParams Mock.E0 Mock.stake_1285_H1 CStakeParams_default
  = Ok (true, decoded_params Edge.chunks_1285).
Proof.
  apply (proj2 (GetStakeParams_accepts_iff Mock.E0 Mock.stake_1285_H1 CStakeParams_default
                  (decoded_params Edge.chunks_1285))).
  exists Edge.coin_input,
    {| nValue := 5000; scriptPubKey := Mock.p2pk Mock.pk_staker |},
    {| nValue := 0;
       scriptPubKey :=
         Mock.opret (Mock.stake_data [Mock.le_bytes 4 257; Mock.le_bytes 4 1285; Mock.H1]) |},
    Edge.chunks_1285.
  split; [reflexivity|]. split; [reflexivity|]. split; [cbn; lia|].
  split; [vm_compute; reflexivity|]. split; [vm_compute; reflexivity|].
  split; [vm_compute; reflexivity|]. split; [vm_compute; discriminate|reflexivity].
Defined.

(** X14. The parameters [GetStakeParams] accepts keep the invariant of the
    data: a source height from 1 to 2^32 - 1, a target height below 2^32, a
    hash of 32 bytes, and a key that is empty or has 33 bytes and is valid. *)
Theorem GetStakeParams_accepted_invariant (E : Env) (stakeTx : CTransaction)
    (sp p : CStakeParams) :
  GetStakeParams E stakeTx sp = Ok (true, p) ->
  0 < srcHeight p < 2 ^ 32
  /\ 0 <= blkHeight p < 2 ^ 32
  /\ size (prevHash p) = 32
  /\ (pk p = CPubKey_default \/ (size (pk p) = 33 /\ pk_IsValid E (pk p) = true)).
Proof.
  intros H.
  destruct (GetStakeParams_accepted_chunks E stakeTx sp p H) as [vData [_ [Hviol [Hsrc ->]]]].
  destruct (CStakeParams_ctor_well_formed E vData Hviol) as [_ [Hs [Hb Hh]]].
  unfold decoded_params. cbn [srcHeight blkHeight prevHash pk].
  split; [lia|]. split; [exact Hb|]. split; [exact Hh|].
  destruct (structural_violation_false E vData Hviol)
    as [t [d1 [d2 [d3 [rest [-> [_ [_ [_ [_ Hrest]]]]]]]]]].
  destruct Hrest as [->|[d4 [-> [H33 Hpk]]]]; cbn [nth]; auto.
Qed.

(** Witness of X14, on the stake with a delegate key. *)
Lemma GetStakeParams_accepted_invariant_witness :
  0 < 257 < 2 ^ 32
  /\ 0 <= 1285 < 2 ^ 32
  /\ size Mock.H1 = 32
  /\ (Mock.pk_delegate = CPubKey_default
      \/ (size Mock.pk_delegate = 33 /\ pk_IsValid Mock.E0 Mock.pk_delegate = true)).
Proof.
  apply (GetStakeParams_accepted_invariant Mock.E0 Mock.stake_delegated CStakeParams_default
           {| srcHeight := 257; blkHeight := 1285;
              prevHash := Mock.H1; pk := Mock.pk_delegate |}).
  vm_compute. reflexivity.
Defined.

Lemma vec_at_out_of_range {A : Type} (v : list A) (i : Z) :
  ~ (0 <= i < size v) -> vec_at v i = Fault OutOfRange.
Proof.
  intros H. unfold vec_at.
  destruct ((0 <=? i) && (i <? size v)) eqn:Hc; [|reflexivity].
  apply andb_true_iff in Hc. destruct Hc as [H1 H2].
  apply Z.leb_le in H1. apply Z.ltb_lt in H2. lia.
Qed.

Lemma is_TX_PUBKEY_true (t : txnouttype) : is_TX_PUBKEY t = true -> t = TX_PUBKEY.
Proof. destruct t; simpl; intros H; try discriminate; reflexivity. Qed.

Lemma is_TX_PUBKEYHASH_true (t : txnouttype) : is_TX_PUBKEYHASH t = true -> t = TX_PUBKEYHASH.
Proof. destruct t; simpl; intros H; try discriminate; reflexivity. Qed.

(** X7. What an accepted stake transaction has passed: its metadata decodes,
    the transaction of its first input is found in a block of the index
    whose height is the source height, the wrapped age test holds, the
    spent output exists and [Solver] reads it as pay-to-pubkey, or as
    pay-to-pubkey-hash with a fully valid key in the stake, and, when the
    signature is required, [VerifyScript] accepts the input under the branch
    of the target height. The heights and the hash returned are the decoded
    ones; the key is the decoded one, or, when the stake carries no valid
    key and the output is pay-to-pubkey, the key built from the push of that
    output (the invalid key when the push does not parse). *)
Theorem ValidateStakeTransaction_sound (E : Env) (stakeTx : CTransaction)
    (sp p : CStakeParams) (validateSig : bool) :
  ValidateStakeTransaction E stakeTx sp validateSig = Ok (true, p) ->
  exists q in0 srcTx blkHash pindex_height src_out txType vAddr,
    GetStakeParams E stakeTx sp = Ok (true, q)
    /\ vec_at (vin stakeTx) 0 = Ok in0
    /\ myGetTransaction E (hash (prevout in0)) = Some (srcTx, blkHash)
    /\ mapBlockIndex E blkHash = Some pindex_height
    /\ srcHeight q = wrap32 pindex_height
    /\ wrap32 (VERUS_MIN_STAKEAGE E) <= wrap32 (blkHeight q - srcHeight q)
    /\ vec_at (vout srcTx) (n (prevout in0)) = Ok src_out
    /\ Solver E (scriptPubKey src_out) = (true, txType, vAddr)
    /\ (txType = TX_PUBKEY
        \/ (txType = TX_PUBKEYHASH /\ pk p = pk q /\ pk_IsFullyValid E (pk q) = true))
    /\ (validateSig = true ->
        VerifyScript E (scriptSig in0) (scriptPubKey src_out) stakeTx 0 (nValue src_out)
          (CurrentEpochBranchId E (blkHeight q)) = true)
    /\ srcHeight p = srcHeight q /\ blkHeight p = blkHeight q /\ prevHash p = prevHash q
    /\ (pk p = pk q
        \/ (txType = TX_PUBKEY /\ CPubKey_IsValid (pk q) = false
            /\ exists a0, vec_at vAddr 0 = Ok a0 /\ pk p = CPubKey_of_vector E a0)).
Proof.
  unfold ValidateStakeTransaction. intros H.
  apply bind_Ok in H. destruct H as [[decoded q] [Hdec H]].
  destruct decoded; [|discriminate].
  apply bind_Ok in H. destruct H as [in0 [Hin H]].
  destruct (myGetTransaction E (hash (prevout in0))) as [[srcTx blkHash]|] eqn:Hsrc;
    [|discriminate].
  destruct (mapBlockIndex E blkHash) as [h|] eqn:Hblk; [|discriminate].
  apply bind_Ok in H. destruct H as [[[solved txType] vAddr] [Hsolve H]].
  destruct solved; [|discriminate].
  destruct ((srcHeight q =? wrap32 h)
            && (wrap32 (blkHeight q - srcHeight q) >=? wrap32 (VERUS_MIN_STAKEAGE E)))
    eqn:Hage; [|discriminate].
  apply andb_true_iff in Hage. destruct Hage as [Hsrch Hage].
  apply Z.eqb_eq in Hsrch. rewrite Z.geb_leb in Hage. apply Z.leb_le in Hage.
  apply bind_Ok in Hsolve. destruct Hsolve as [src_out [Hout Hsolve]].
  injection Hsolve as Hsolve.
  exists q, in0, srcTx, blkHash, h, src_out, txType, vAddr.
  repeat (split; [assumption|]).
  apply bind_Ok in H. destruct H as [p' [Hp' H]].
  assert (Hkey : srcHeight p' = srcHeight q /\ blkHeight p' = blkHeight q
                 /\ prevHash p' = prevHash q
                 /\ (pk p' = pk q
                     \/ (txType = TX_PUBKEY /\ CPubKey_IsValid (pk q) = false
                         /\ exists a0, vec_at vAddr 0 = Ok a0
                                       /\ pk p' = CPubKey_of_vector E a0))
                 /\ (is_TX_PUBKEY txType = false -> pk p' = pk q)).
  { destruct (is_TX_PUBKEY txType) eqn:Htype; cbn [andb] in Hp'.
    - apply is_TX_PUBKEY_true in Htype.
      destruct (CPubKey_IsValid (pk q)) eqn:Hpk; cbn [negb] in Hp'.
      + injection Hp' as <-. repeat split; auto; discriminate.
      + apply bind_Ok in Hp'. destruct Hp' as [a0 [Ha0 Hp']]. injection Hp' as <-.
        cbn [srcHeight blkHeight prevHash pk].
        split; [reflexivity|]. split; [reflexivity|]. split; [reflexivity|].
        split; [|discriminate]. right. split; [exact Htype|]. split; [reflexivity|].
        exists a0. split; [exact Ha0|reflexivity].
    - injection Hp' as <-. repeat split; auto. }
  destruct Hkey as [Hs [Hb [Hh [Hpk Hkeep]]]].
  destruct (is_TX_PUBKEY txType || (is_TX_PUBKEYHASH txType && pk_IsFullyValid E (pk p')))
    eqn:Hform; [|discriminate].
  apply bind_Ok in H. destruct H as [verified [Hver H]]. injection H as -> <-.
  rewrite Hb in Hver.
  split; [|split; [|auto]].
  - destruct (is_TX_PUBKEY txType) eqn:Htype.
    + left. apply is_TX_PUBKEY_true. exact Htype.
    + right. cbn [orb] in Hform. apply andb_true_iff in Hform. destruct Hform as [Hh' Hfull].
      rewrite (Hkeep eq_refl) in Hfull.
      split; [apply is_TX_PUBKEYHASH_true; exact Hh'|]. split; [apply Hkeep; reflexivity|].
      exact Hfull.
  - intros ->. cbn [negb orM bind] in Hver. rewrite Hout in Hver. cbn [bind] in Hver.
    injection Hver as Hver. exact Hver.
Qed.

(** Witness of X7, on the signed stake of the scenario. *)
Lemma ValidateStakeTransaction_sound_witness :
  exists q in0 srcTx blkHash pindex_height src_out txType vAddr,
    GetStakeParams Mock.E0 Mock.stake_1285_H1 CStakeParams_default = Ok (true, q)
    /\ vec_at (vin Mock.stake_1285_H1) 0 = Ok in0
    /\ myGetTransaction Mock.E0 (hash (prevout in0)) = Some (srcTx, blkHash)
    /\ mapBlockIndex Mock.E0 blkHash = Some pindex_height
    /\ srcHeight q = wrap32 pindex_height
    /\ wrap32 (VERUS_MIN_STAKEAGE Mock.E0) <= wrap32 (blkHeight q - srcHeight q)
    /\ vec_at (vout srcTx) (n (prevout in0)) = Ok src_out
    /\ Solver Mock.E0 (scriptPubKey src_out) = (true, txType, vAddr)
    /\ (txType = TX_PUBKEY
        \/ (txType = TX_PUBKEYHASH /\ Mock.pk_staker = pk q
            /\ pk_IsFullyValid Mock.E0 (pk q) = true))
    /\ (true = true ->
        VerifyScript Mock.E0 (scriptSig in0) (scriptPubKey src_out) Mock.stake_1285_H1 0
          (nValue src_out) (CurrentEpochBranchId Mock.E0 (blkHeight q)) = true)
    /\ 257 = srcHeight q /\ 1285 = blkHeight q /\ Mock.H1 = prevHash q
    /\ (Mock.pk_staker = pk q
        \/ (txType = TX_PUBKEY /\ CPubKey_IsValid (pk q) = false
            /\ exists a0, vec_at vAddr 0 = Ok a0
                          /\ Mock.pk_staker = CPubKey_of_vector Mock.E0 a0)).
Proof.
  apply (ValidateStakeTransaction_sound Mock.E0 Mock.stake_1285_H1 CStakeParams_default
           {| srcHeight := 257; blkHeight := 1285; prevHash := Mock.H1; pk := Mock.pk_staker |}
           true).
  vm_compute. reflexivity.
Defined.

(** X8. [ValidateStakeTransaction] indexes the outputs of the source
    transaction with [prevout.n] without a bounds test: when the metadata
    decodes, the source transaction is found at the claimed height and the
    age test holds, an output index outside the source transaction is read
    out of range. *)
Theorem ValidateStakeTransaction_prevout_out_of_range (E : Env) (stakeTx : CTransaction)
    (sp q : CStakeParams) (validateSig : bool) (in0 : CTxIn) (srcTx : CTransaction)
    (blkHash : uint256) (pindex_height : Z) :
  GetStakeParams E stakeTx sp = Ok (true, q) ->
  vec_at (vin stakeTx) 0 = Ok in0 ->
  myGetTransaction E (hash (prevout in0)) = Some (srcTx, blkHash) ->
  mapBlockIndex E blkHash = Some pindex_height ->
  srcHeight q = wrap32 pindex_height ->
  wrap32 (VERUS_MIN_STAKEAGE E) <= wrap32 (blkHeight q - srcHeight q) ->
  ~ (0 <= n (prevout in0) < size (vout srcTx)) ->
  ValidateStakeTransaction E stakeTx sp validateSig = Fault OutOfRange.
Proof.
  intros Hdec Hin Hsrc Hblk Hheight Hage Hrange.
  unfold ValidateStakeTransaction. rewrite Hdec. cbn [bind]. rewrite Hin. cbn [bind].
  rewrite Hsrc, Hblk.
  replace (srcHeight q =? wrap32 pindex_height) with true
    by (symmetry; apply Z.eqb_eq; exact Hheight).
  replace (wrap32 (blkHeight q - srcHeight q) >=? wrap32 (VERUS_MIN_STAKEAGE E)) with true
    by (symmetry; rewrite Z.geb_leb; apply Z.leb_le; exact Hage).
  cbn [andb]. rewrite (vec_at_out_of_range _ _ Hrange). reflexivity.
Qed.

(** Witness of X8: the rewarded claim, spending output 7 of a transaction
    with one output. *)
Lemma ValidateStakeTransaction_prevout_out_of_range_witness :
  ValidateStakeTransaction Mock.E0 Edge.stake_bad_index CStakeParams_default true
  = Fault OutOfRange.
Proof.
  refine (ValidateStakeTransaction_prevout_out_of_range Mock.E0 Edge.stake_bad_index
            CStakeParams_default (decoded_params Edge.chunks_1285) true
            {| prevout := {| hash := Mock.txid_coin; n := 7 |}; scriptSig := Mock.valid_sig |}
            Mock.coin_tx Mock.block_257 257 _ _ _ _ _ _ _).
  - vm_compute. reflexivity.
  - vm_compute. reflexivity.
  - vm_compute. reflexivity.
  - vm_compute. reflexivity.
  - vm_compute. reflexivity.
  - change (150 <= 1028). lia.
  - change (~ (0 <= 7 < 1)). lia.
Defined.

Lemma bytes_eqb_eq (a b : list byte) : bytes_eqb a b = true <-> a = b.
Proof.
  revert b. induction a as [|x a IH]; intros [|y b]; simpl; split; intros H;
    try reflexivity; try discriminate.
  - apply andb_true_iff in H. destruct H as [Hxy Hab].
    apply Strings.Byte.byte_dec_bl in Hxy. apply IH in Hab. subst. reflexivity.
  - injection H as -> ->. apply andb_true_iff. split.
    + apply Strings.Byte.byte_dec_lb. reflexivity.
    + apply IH. reflexivity.
Qed.

Lemma uint256_of_vector_Ok (v : list byte) (h : uint256) :
  uint256_of_vector v = Ok h -> h = v /\ size v = 32.
Proof.
  unfold uint256_of_vector. destruct (size v =? 32) eqn:Hs; [|discriminate].
  intros H. injection H as <-. apply Z.eqb_eq in Hs. auto.
Qed.

(** What a reported match rests on. *)
Lemma ValidateMatchingStake_match_facts (E : Env) (ccTx : CTransaction) (voutNum : Z)
    (stakeTx : CTransaction) (cheating : bool) :
  ValidateMatchingStake E ccTx voutNum stakeTx = Ok (true, cheating) ->
  IsCoinBase E ccTx = true
  /\ exists p cc_out vp0 in0 d0 d1,
      ValidateStakeTransaction E stakeTx CStakeParams_default (validateSig_default E)
      = Ok (true, p)
      /\ vec_at (vout ccTx) voutNum = Ok cc_out
      /\ fst (IsPayToCryptoCondition E (scriptPubKey cc_out)) = true
      /\ vec_at (snd (IsPayToCryptoCondition E (scriptPubKey cc_out))) 0 = Ok vp0
      /\ COptCCParams_IsValid E (COptCCParams_parse E vp0) = true
      /\ vec_at (vin stakeTx) 0 = Ok in0
      /\ vec_at (ccp_vData (COptCCParams_parse E vp0)) 0 = Ok d0
      /\ vec_at (ccp_vData (COptCCParams_parse E vp0)) 1 = Ok d1
      /\ VerusHash E (hash (prevout in0)) (n (prevout in0)) = d0
      /\ (cheating = true <-> prevHash p <> d1)
      /\ (cheating = false -> blkHeight p = 0).
Proof.
  unfold ValidateMatchingStake. intros H.
  destruct (IsCoinBase E ccTx); [|discriminate]. split; [reflexivity|].
  apply bind_Ok in H. destruct H as [[valid p] [Hvalid H]].
  destruct valid; [|discriminate].
  apply bind_Ok in H. destruct H as [cc_out [Hout H]].
  destruct (IsPayToCryptoCondition E (scriptPubKey cc_out)) as [isCC vParams] eqn:Hcc.
  destruct isCC; cbn [andb] in H; [|discriminate].
  destruct (0 <? size vParams); [|discriminate].
  apply bind_Ok in H. destruct H as [vp0 [Hvp0 H]].
  apply bind_Ok in H. destruct H as [shaped [Hshaped H]].
  destruct shaped; [|discriminate].
  destruct (COptCCParams_IsValid E (COptCCParams_parse E vp0)) eqn:Hccp;
    [|cbn [andb andM bind] in Hshaped; discriminate].
  apply bind_Ok in H. destruct H as [in0 [Hin0 H]].
  apply bind_Ok in H. destruct H as [d2 [_ H]].
  apply bind_Ok in H. destruct H as [d0 [Hd0 H]].
  apply bind_Ok in H. destruct H as [recorded_utxo [Hrec0 H]].
  apply uint256_of_vector_Ok in Hrec0. destruct Hrec0 as [-> _].
  destruct (bytes_eqb (VerusHash E (hash (prevout in0)) (n (prevout in0))) d0) eqn:Hfp;
    [|discriminate].
  apply bytes_eqb_eq in Hfp.
  apply bind_Ok in H. destruct H as [d1 [Hd1 H]].
  apply bind_Ok in H. destruct H as [recorded_prevHash [Hrec1 H]].
  apply uint256_of_vector_Ok in Hrec1. destruct Hrec1 as [-> _].
  rewrite reconstruct_height_zero in H.
  exists p, cc_out, vp0, in0, d0, d1.
  destruct (ValidateStakeTransaction_accepts _ _ _ _ _ Hvalid)
    as [q [in0' [srcTx [blkHash [h [Hq [_ [_ [_ [_ [_ [_ [Hblk _]]]]]]]]]]]]].
  apply GetStakeParams_blkHeight_nonneg in Hq. rewrite <- Hblk in Hq.
  replace (blkHeight p >=? 0) with true in H
    by (symmetry; rewrite Z.geb_leb; apply Z.leb_le; exact Hq).
  rewrite andb_true_r in H. rewrite Hcc. cbn [fst snd].
  repeat (split; [assumption || reflexivity|]).
  destruct (bytes_eqb (prevHash p) d1) eqn:Hprev; cbn [negb] in H.
  - apply bytes_eqb_eq in Hprev.
    destruct (blkHeight p =? 0) eqn:Hz; [|discriminate]. injection H as <-.
    apply Z.eqb_eq in Hz. split; [|auto]. split; [discriminate|]. intros Hne. contradiction.
  - injection H as <-. split; [|discriminate]. split; [|reflexivity].
    intros _ Heq. apply bytes_eqb_eq in Heq. rewrite Heq in Hprev. discriminate.
Qed.

(** X9. [ValidateMatchingStake] never reports cheating without a match. A
    match is reported only for a coinbase, a candidate that
    [ValidateStakeTransaction] accepts and an output that parses as a
    crypto-condition with valid parameters whose chunk 0 is the fingerprint
    of the candidate's input; cheating is then reported exactly when the
    candidate's previous-block hash differs from chunk 1, and a match
    without cheating only for a target height of 0. *)
Theorem ValidateMatchingStake_sound (E : Env) (ccTx : CTransaction) (voutNum : Z)
    (stakeTx : CTransaction) (matches cheating : bool) :
  ValidateMatchingStake E ccTx voutNum stakeTx = Ok (matches, cheating) ->
  (cheating = true -> matches = true)
  /\ (matches = true ->
      IsCoinBase E ccTx = true
      /\ exists p cc_out vp0 in0 d0 d1,
          ValidateStakeTransaction E stakeTx CStakeParams_default (validateSig_default E)
          = Ok (true, p)
          /\ vec_at (vout ccTx) voutNum = Ok cc_out
          /\ fst (IsPayToCryptoCondition E (scriptPubKey cc_out)) = true
          /\ vec_at (snd (IsPayToCryptoCondition E (scriptPubKey cc_out))) 0 = Ok vp0
          /\ COptCCParams_IsValid E (COptCCParams_parse E vp0) = true
          /\ vec_at (vin stakeTx) 0 = Ok in0
          /\ vec_at (ccp_vData (COptCCParams_parse E vp0)) 0 = Ok d0
          /\ vec_at (ccp_vData (COptCCParams_parse E vp0)) 1 = Ok d1
          /\ VerusHash E (hash (prevout in0)) (n (prevout in0)) = d0
          /\ (cheating = true <-> prevHash p <> d1)
          /\ (cheating = false -> blkHeight p = 0)).
Proof.
  intros H. split.
  - intros ->. destruct matches; [reflexivity|].
    revert H. unfold ValidateMatchingStake. crunch.
    all: intros H; discriminate.
  - intros ->. apply ValidateMatchingStake_match_facts. exact H.
Qed.

(** X13. [ValidateMatchingStake] looks at the output [voutNum] of the
    coinbase only after the coinbase test and the validation of the
    candidate, and then without a bounds test: for a transaction that is no
    coinbase, or a candidate that is refused, it reports no match whatever
    the index; for a coinbase and an accepted candidate an index outside
    the outputs is read out of range. *)
Theorem ValidateMatchingStake_vout_out_of_range (E : Env) (ccTx : CTransaction) (voutNum : Z)
    (stakeTx : CTransaction) :
  (IsCoinBase E ccTx = false ->
   ValidateMatchingStake E ccTx voutNum stakeTx = Ok (false, false))
  /\ (forall p,
        ValidateStakeTransaction E stakeTx CStakeParams_default (validateSig_default E)
        = Ok (false, p) ->
        ValidateMatchingStake E ccTx voutNum stakeTx = Ok (false, false))
  /\ (forall p,
        IsCoinBase E ccTx = true ->
        ValidateStakeTransaction E stakeTx CStakeParams_default (validateSig_default E)
        = Ok (true, p) ->
        ~ (0 <= voutNum < size (vout ccTx)) ->
        ValidateMatchingStake E ccTx voutNum stakeTx = Fault OutOfRange).
Proof.
  unfold ValidateMatchingStake. split; [|split].
  - intros ->. reflexivity.
  - intros p ->. cbn [bind]. destruct (IsCoinBase E ccTx); reflexivity.
  - intros p -> -> Hrange. cbn [bind]. rewrite (vec_at_out_of_range _ _ Hrange). reflexivity.
Qed.

(** Witness of X13: the coinbase of the scenario has one output. *)
Lemma ValidateMatchingStake_vout_out_of_range_witness :
  ValidateMatchingStake Mock.E0 Mock.reward_tx 5 Mock.stake_1542_H2 = Fault OutOfRange.
Proof.
  refine (proj2 (proj2 (ValidateMatchingStake_vout_out_of_range Mock.E0 Mock.reward_tx 5
                          Mock.stake_1542_H2))
            {| srcHeight := 257; blkHeight := 1542; prevHash := Mock.H2; pk := Mock.pk_staker |}
            _ _ _).
  - vm_compute. reflexivity.
  - vm_compute. reflexivity.
  - change (~ (0 <= 5 < 1)). lia.
Defined.

(** Witness of X9, on the later stake on the other fork. *)
Lemma ValidateMatchingStake_sound_witness :
  (true = true -> true = true)
  /\ (true = true ->
      IsCoinBase Mock.E0 Mock.reward_tx = true
      /\ exists p cc_out vp0 in0 d0 d1,
          ValidateStakeTransaction Mock.E0 Mock.stake_1542_H2 CStakeParams_default
            (validateSig_default Mock.E0)
          = Ok (true, p)
          /\ vec_at (vout Mock.reward_tx) 0 = Ok cc_out
          /\ fst (IsPayToCryptoCondition Mock.E0 (scriptPubKey cc_out)) = true
          /\ vec_at (snd (IsPayToCryptoCondition Mock.E0 (scriptPubKey cc_out))) 0 = Ok vp0
          /\ COptCCParams_IsValid Mock.E0 (COptCCParams_parse Mock.E0 vp0) = true
          /\ vec_at (vin Mock.stake_1542_H2) 0 = Ok in0
          /\ vec_at (ccp_vData (COptCCParams_parse Mock.E0 vp0)) 0 = Ok d0
          /\ vec_at (ccp_vData (COptCCParams_parse Mock.E0 vp0)) 1 = Ok d1
          /\ VerusHash Mock.E0 (hash (prevout in0)) (n (prevout in0)) = d0
          /\ (true = true <-> prevHash p <> d1)
          /\ (true = false -> blkHeight p = 0)).
Proof.
  apply (ValidateMatchingStake_sound Mock.E0 Mock.reward_tx 0 Mock.stake_1542_H2 true true).
  vm_compute. reflexivity.
Defined.

Lemma MakeGuardedOutput_built (E : Env) (value : Z) (dest : CPubKey) (stakeTx : CTransaction)
    (o : CTxOut) :
  MakeGuardedOutput E value dest stakeTx = Ok (true, o) ->
  exists in0 p,
    vec_at (vin stakeTx) 0 = Ok in0
    /\ GetStakeParams E stakeTx CStakeParams_default = Ok (true, p)
    /\ nValue o = nValue (MakeCC1of2vout E (EVAL_COINBASEGUARD E) value dest (CChexstr E))
    /\ scriptPubKey o = guard_script E value dest in0 p.
Proof.
  unfold MakeGuardedOutput. intros H.
  apply bind_Ok in H. destruct H as [in0 [Hin H]].
  apply bind_Ok in H. destruct H as [[decoded p] [Hdec H]].
  destruct decoded; [|discriminate]. injection H as <-.
  exists in0, p. auto.
Qed.

(** X3. The metadata of a guarded output [MakeGuardedOutput] has built: the
    fingerprint of the stake's first input, the stake's hash chunk, and the
    stake's target-height chunk extended with zero bytes to four bytes; the
    value is that of the 1-of-2 output. *)
Theorem MakeGuardedOutput_metadata (E : Env) (value : Z) (dest : CPubKey)
    (stakeTx : CTransaction) (o : CTxOut) :
  MakeGuardedOutput E value dest stakeTx = Ok (true, o) ->
  exists in0 vData,
    vec_at (vin stakeTx) 0 = Ok in0
    /\ UnpackStakeOpRet E stakeTx = Ok (true, vData)
    /\ structural_violation E vData = false
    /\ nValue o = nValue (MakeCC1of2vout E (EVAL_COINBASEGUARD E) value dest (CChexstr E))
    /\ scriptPubKey o =
       push_opcode E
         (push_vector E
            (scriptPubKey (MakeCC1of2vout E (EVAL_COINBASEGUARD E) value dest (CChexstr E)))
            (COptCCParams_AsVector E
               {| ccp_version := COptCCParams_VERSION E;
                  ccp_evalCode := EVAL_COINBASEGUARD E;
                  ccp_m := 1;
                  ccp_n := 2;
                  ccp_vKeys := [dest; CChexstr E];
                  ccp_vData :=
                    [VerusHash E (hash (prevout in0)) (n (prevout in0));
                     nth 3 vData [];
                     nth 2 vData [] ++ repeat Byte.x00 (4 - length (nth 2 vData []))] |}))
         OP_DROP.
Proof.
  intros H. destruct (MakeGuardedOutput_built _ _ _ _ _ H) as [in0 [p [Hin [Hdec [Hval Hscript]]]]].
  destruct (GetStakeParams_accepted_chunks _ _ _ _ Hdec) as [vData [Hrun [Hviol [_ ->]]]].
  exists in0, vData. repeat (split; [assumption|]).
  rewrite Hscript. unfold guard_script, guard_params, decoded_params.
  cbn [prevHash blkHeight].
  destruct (structural_violation_false E vData Hviol)
    as [t [d1 [d2 [d3 [rest [-> [_ [_ [H2 _]]]]]]]]].
  cbn [nth]. rewrite (height_bytes_of_chunk d2 H2). reflexivity.
Qed.

(** Witness of X3, on the guarded output of the scenario. *)
Lemma MakeGuardedOutput_metadata_witness :
  exists in0 vData,
    vec_at (vin Mock.stake_1285_H1) 0 = Ok in0
    /\ UnpackStakeOpRet Mock.E0 Mock.stake_1285_H1 = Ok (true, vData)
    /\ structural_violation Mock.E0 vData = false
    /\ nValue Mock.guarded_output
       = nValue (MakeCC1of2vout Mock.E0 (EVAL_COINBASEGUARD Mock.E0) 100 Mock.pk_dest
                   (CChexstr Mock.E0))
    /\ scriptPubKey Mock.guarded_output =
       push_opcode Mock.E0
         (push_vector Mock.E0
            (scriptPubKey (MakeCC1of2vout Mock.E0 (EVAL_COINBASEGUARD Mock.E0) 100
                             Mock.pk_dest (CChexstr Mock.E0)))
            (COptCCParams_AsVector Mock.E0
               {| ccp_version := COptCCParams_VERSION Mock.E0;
                  ccp_evalCode := EVAL_COINBASEGUARD Mock.E0;
                  ccp_m := 1;
                  ccp_n := 2;
                  ccp_vKeys := [Mock.pk_dest; CChexstr Mock.E0];
                  ccp_vData :=
                    [VerusHash Mock.E0 (hash (prevout in0)) (n (prevout in0));
                     nth 3 vData [];
                     nth 2 vData [] ++ repeat Byte.x00 (4 - length (nth 2 vData []))] |}))
         OP_DROP.
Proof.
  apply (MakeGuardedOutput_metadata Mock.E0 100 Mock.pk_dest Mock.stake_1285_H1
           Mock.guarded_output).
  vm_compute. reflexivity.
Defined.

Lemma GetStakeParams_returns (E : Env) (HE : GetOp_consumes E) (stakeTx : CTransaction)
    (sp : CStakeParams) :
  exists decoded p, GetStakeParams E stakeTx sp = Ok (decoded, p).
Proof.
  destruct (GetStakeParams_cases E stakeTx sp) as [H|[_ [Hout H]]]; [eauto|].
  destruct (UnpackStakeOpRet_returns E HE stakeTx ltac:(lia)) as [unpacked [vData Hrun]].
  rewrite H, Hrun. cbn [bind]. destruct unpacked; [|eauto].
  destruct (CStakeParams_ctor_sentinel E vData (UnpackStakeOpRet_count _ _ _ Hrun))
    as [p [-> _]].
  cbn [bind]. eauto.
Qed.

(** X4. [MakeGuardedOutput] reads the first input of the stake transaction
    before it looks at its shape: on a transaction without inputs the read
    is out of range. On every other transaction it returns the flag of
    [GetStakeParams]; its out-parameter then has the value of the 1-of-2
    output, and is that output, without metadata, when the flag is false. *)
Theorem MakeGuardedOutput_returns (E : Env) (HE : GetOp_consumes E) (value : Z)
    (dest : CPubKey) (stakeTx : CTransaction) :
  (vin stakeTx = [] -> MakeGuardedOutput E value dest stakeTx = Fault OutOfRange)
  /\ (vin stakeTx <> [] ->
      exists decoded p o,
        GetStakeParams E stakeTx CStakeParams_default = Ok (decoded, p)
        /\ MakeGuardedOutput E value dest stakeTx = Ok (decoded, o)
        /\ nValue o
           = nValue (MakeCC1of2vout E (EVAL_COINBASEGUARD E) value dest (CChexstr E))
        /\ (decoded = false ->
            o = MakeCC1of2vout E (EVAL_COINBASEGUARD E) value dest (CChexstr E))).
Proof.
  split.
  - intros Hin. unfold MakeGuardedOutput. rewrite Hin. reflexivity.
  - intros Hin. unfold MakeGuardedOutput.
    destruct (vin stakeTx) as [|in0 ins] eqn:Hvin; [contradiction|].
    rewrite vec_at_head. cbn [bind].
    destruct (GetStakeParams_returns E HE stakeTx CStakeParams_default) as [decoded [p ->]].
    cbn [bind]. destruct decoded.
    + eexists true, p, _. repeat split. discriminate.
    + eexists false, p, _. repeat split.
Qed.

(** Witness of X4, on the stake with three chunks. *)
Lemma MakeGuardedOutput_returns_witness :
  (vin Mock.stake_short = [] ->
   MakeGuardedOutput Mock.E0 100 Mock.pk_dest Mock.stake_short = Fault OutOfRange)
  /\ (vin Mock.stake_short <> [] ->
      exists decoded p o,
        GetStakeParams Mock.E0 Mock.stake_short CStakeParams_default = Ok (decoded, p)
        /\ MakeGuardedOutput Mock.E0 100 Mock.pk_dest Mock.stake_short = Ok (decoded, o)
        /\ nValue o
           = nValue (MakeCC1of2vout Mock.E0 (EVAL_COINBASEGUARD Mock.E0) 100 Mock.pk_dest
                       (CChexstr Mock.E0))
        /\ (decoded = false ->
            o = MakeCC1of2vout Mock.E0 (EVAL_COINBASEGUARD Mock.E0) 100 Mock.pk_dest
                  (CChexstr Mock.E0))).
Proof.
  exact (MakeGuardedOutput_returns Mock.E0 (mock_GetOp_consumes _ _) 100 Mock.pk_dest
           Mock.stake_short).
Defined.

Lemma vec_at_tail {A : Type} (a : A) (l : list A) (i : Z) :
  0 < i -> vec_at (a :: l) i = vec_at l (i - 1).
Proof.
  intros Hi. unfold vec_at.
  replace (size (a :: l)) with (size l + 1) by (unfold size; simpl length; lia).
  replace (Z.to_nat i) with (S (Z.to_nat (i - 1))) by lia. cbn [nth_error].
  replace ((0 <=? i) && (i <? size l + 1)) with ((0 <=? i - 1) && (i - 1 <? size l));
    [reflexivity|].
  destruct (i - 1 <? size l) eqn:H1, (i <? size l + 1) eqn:H2;
    rewrite ?andb_true_r, ?andb_false_r; try reflexivity;
    try (apply Z.ltb_lt in H1; apply Z.ltb_ge in H2; lia);
    try (apply Z.ltb_ge in H1; apply Z.ltb_lt in H2; lia).
  replace (0 <=? i - 1) with true by (symmetry; apply Z.leb_le; lia).
  replace (0 <=? i) with true by (symmetry; apply Z.leb_le; lia). reflexivity.
Qed.

Lemma bytes_eqb_refl (a : list byte) : bytes_eqb a a = true.
Proof. apply bytes_eqb_eq. reflexivity. Qed.

(** X10. Building and detecting compose: for the guarded output built from a
    stake, placed in a coinbase, and a second stake of the same outpoint
    that [ValidateStakeTransaction] accepts, the detector reports cheating
    when the previous-block hashes of the two stakes differ, whatever their
    target heights; when the hashes are equal it reports no cheating, and a
    match only if the target height of the second stake is 0. (The
    environment is assumed to read back the parameters the builder wrote,
    and to hash to 32 bytes.) *)
Theorem guarded_output_detection (E : Env) (value : Z) (dest : CPubKey)
    (stake1 stake2 ccTx : CTransaction) (voutNum : Z) (o : CTxOut)
    (in1 in2 : CTxIn) (p1 p2 : CStakeParams) :
  MakeGuardedOutput E value dest stake1 = Ok (true, o) ->
  vec_at (vin stake1) 0 = Ok in1 ->
  GetStakeParams E stake1 CStakeParams_default = Ok (true, p1) ->
  IsPayToCryptoCondition E (guard_script E value dest in1 p1)
  = (true, [COptCCParams_AsVector E (guard_params E dest in1 p1)]) ->
  COptCCParams_parse E (COptCCParams_AsVector E (guard_params E dest in1 p1))
  = guard_params E dest in1 p1 ->
  COptCCParams_IsValid E (guard_params E dest in1 p1) = true ->
  size (VerusHash E (hash (prevout in1)) (n (prevout in1))) = 32 ->
  IsCoinBase E ccTx = true ->
  vec_at (vout ccTx) voutNum = Ok o ->
  ValidateStakeTransaction E stake2 CStakeParams_default (validateSig_default E)
  = Ok (true, p2) ->
  vec_at (vin stake2) 0 = Ok in2 ->
  prevout in2 = prevout in1 ->
  ValidateMatchingStake E ccTx voutNum stake2 =
  Ok (if bytes_eqb (prevHash p2) (prevHash p1)
      then (blkHeight p2 =? 0, false)
      else (true, true)).
Proof.
  intros Hbuilt Hin1 Hdec1 Hscript Hparse Hvalid Hfp Hcb Hout Hv2 Hin2 Hsame.
  destruct (MakeGuardedOutput_built _ _ _ _ _ Hbuilt) as [in1' [p1' [Hin1' [Hdec1' [_ Ho]]]]].
  rewrite Hin1 in Hin1'. injection Hin1' as <-.
  rewrite Hdec1 in Hdec1'. injection Hdec1' as <-.
  destruct (GetStakeParams_accepted_chunks _ _ _ _ Hdec1) as [vData [_ [Hviol [_ Hp1]]]].
  assert (Hh32 : size (prevHash p1) = 32).
  { destruct (CStakeParams_ctor_well_formed E vData Hviol) as [_ [_ [_ H32]]].
    rewrite Hp1. exact H32. }
  destruct (ValidateStakeTransaction_accepts _ _ _ _ _ Hv2)
    as [q [in0' [srcTx [blkHash [h [Hq [_ [_ [_ [_ [_ [_ [Hblk _]]]]]]]]]]]]].
  apply GetStakeParams_blkHeight_nonneg in Hq. rewrite <- Hblk in Hq.
  unfold ValidateMatchingStake. rewrite Hcb, Hv2. cbn [bind]. rewrite Hout. cbn [bind].
  rewrite Ho, Hscript.
  replace (0 <? size [COptCCParams_AsVector E (guard_params E dest in1 p1)]) with true
    by reflexivity.
  rewrite vec_at_head. cbn [andb bind]. rewrite Hparse, Hvalid.
  cbn [ccp_vData guard_params].
  set (fp := VerusHash E (hash (prevout in1)) (n (prevout in1))) in *.
  set (hb := height_bytes (blkHeight p1)) in *.
  match goal with |- context [vec_at ?l 2] => set (vd := l) end.
  assert (H0 : @vec_at (list byte) vd 0 = Ok fp) by apply vec_at_head.
  assert (H1 : @vec_at (list byte) vd 1 = Ok (prevHash p1))
    by (unfold vd; rewrite vec_at_tail by lia; apply vec_at_head).
  assert (H2 : @vec_at (list byte) vd 2 = Ok hb)
    by (unfold vd; rewrite vec_at_tail by lia; rewrite vec_at_tail by lia; apply vec_at_head).
  replace (3 <=? @size (list byte) vd) with true by reflexivity.
  rewrite H2. cbn [andb andM bind].
  replace (size hb <=? 4) with true by reflexivity.
  rewrite Hin2. cbn [bind]. rewrite H0. cbn [bind]. rewrite Hsame. fold fp.
  unfold uint256_of_vector. apply Z.eqb_eq in Hfp, Hh32. rewrite Hfp. cbn [bind].
  rewrite bytes_eqb_refl. rewrite H1. cbn [bind]. rewrite Hh32. cbn [bind].
  rewrite reconstruct_height_zero.
  replace (blkHeight p2 >=? 0) with true
    by (symmetry; rewrite Z.geb_leb; apply Z.leb_le; exact Hq).
  rewrite andb_true_r.
  destruct (bytes_eqb (prevHash p2) (prevHash p1)); cbn [negb].
  - destruct (blkHeight p2 =? 0); reflexivity.
  - reflexivity.
Qed.

(** Witness of X10: the guarded output of the scenario and the later stake
    on the other fork. *)
Lemma guarded_output_detection_witness :
  ValidateMatchingStake Mock.E0 Mock.reward_tx 0 Mock.stake_1542_H2 = Ok (true, true).
Proof.
  refine (guarded_output_detection Mock.E0 100 Mock.pk_dest Mock.stake_1285_H1
            Mock.stake_1542_H2 Mock.reward_tx 0 Mock.guarded_output
            Edge.coin_input Edge.coin_input
            {| srcHeight := 257; blkHeight := 1285; prevHash := Mock.H1; pk := [] |}
            {| srcHeight := 257; blkHeight := 1542; prevHash := Mock.H2; pk := Mock.pk_staker |}
            _ _ _ _ _ _ _ _ _ _ _ _);
    vm_compute; reflexivity.
Defined.

(** X12. [CoinbaseGuardValidate] reads out of range exactly when the input
    index is outside the inputs of the transaction, or when the fulfillment
    parses, [GetCCParams] succeeds with a single precondition and at least
    one parameter: [preConditions[1]] is read after a test that the vector
    is not empty. *)
Theorem CoinbaseGuardValidate_out_of_range (E : Env) (tx : CTransaction) (nIn : Z) :
  CoinbaseGuardValidate E tx nIn = Fault OutOfRange <->
  ~ (0 <= nIn < size (vin tx))
  \/ exists txin cc txOut preConditions params,
       vec_at (vin tx) nIn = Ok txin
       /\ GetCryptoCondition E (scriptSig txin) = Some cc
       /\ GetCCParams E tx nIn = Some (txOut, preConditions, params)
       /\ size preConditions = 1
       /\ 0 < size params.
Proof.
  unfold CoinbaseGuardValidate. split.
  - intros H.
    destruct (vec_at (vin tx) nIn) as [txin|f] eqn:Hin; cbn [bind] in H.
    + right.
      destruct (GetCryptoCondition E (scriptSig txin)) as [cc|] eqn:Hcc;
        cbn [bind] in H; [|discriminate].
      destruct (GetCCParams E tx nIn) as [[[txOut pre] params]|] eqn:Hparams;
        cbn [bind] in H; [|discriminate].
      destruct ((0 <? size pre) && (0 <? size params)) eqn:Hsizes;
        [|cbn [bind andM negb] in H; discriminate].
      apply andb_true_iff in Hsizes. destruct Hsizes as [Hpre Hpar].
      apply Z.ltb_lt in Hpre, Hpar.
      destruct (vec_at pre 1) as [pre1|f] eqn:Hp1;
        [cbn [bind andM negb] in H; discriminate|].
      exists txin, cc, txOut, pre, params. repeat (split; [reflexivity || assumption|]).
      split; [|exact Hpar].
      destruct (Z.eq_dec (size pre) 1) as [Heq|Hne]; [exact Heq|].
      destruct (vec_at_in_range pre 1 ltac:(lia)) as [a Ha]. rewrite Ha in Hp1. discriminate.
    + left. intros Hrange. destruct (vec_at_in_range _ _ Hrange) as [a Ha].
      rewrite Ha in Hin. discriminate.
  - intros [Hrange|[txin [cc [txOut [pre [params [Hin [Hcc [Hparams [Hpre Hpar]]]]]]]]]].
    + rewrite (vec_at_out_of_range _ _ Hrange). reflexivity.
    + rewrite Hin. cbn [bind]. rewrite Hcc, Hparams.
      replace ((0 <? size pre) && (0 <? size params)) with true
        by (symmetry; apply andb_true_iff; split; apply Z.ltb_lt; lia).
      rewrite (vec_at_out_of_range pre 1) by lia. reflexivity.
Qed.

(** Witness of X12: the spend that carries a cheat-evidence output; the
    guarded output gives a single precondition. *)
Lemma CoinbaseGuardValidate_out_of_range_witness :
  CoinbaseGuardValidate Mock.E0 Edge.slash_with_evidence 0 = Fault OutOfRange.
Proof.
  apply (proj2 (CoinbaseGuardValidate_out_of_range Mock.E0 Edge.slash_with_evidence 0)).
  right.
  do 5 eexists.
  split; [vm_compute; reflexivity|]. split; [vm_compute; reflexivity|].
  split; [vm_compute; reflexivity|]. split; [vm_compute; reflexivity|].
  vm_compute. reflexivity.
Defined.
